(** * Configuration resolution and credential validation of zenodo-deposit

    A shallow embedding of [src/zenodo_deposit/config.py] (and of the two
    places of [src/zenodo_deposit/cli.py] that handle tokens), followed by
    the properties of the specification that concern them.

    Modelling conventions.
    - A Python [str] is a [string]; every [ascii] stands for one code point
      below 256.  [isspace], [strip] and [repr] follow CPython on that range.
    - A Python [dict] of strings is an association list in insertion order
      (the order is visible in [repr], hence in error messages).
    - Dictionaries are objects: they live in a store and are passed around
      by reference, so that sharing between the memo cache and the callers
      is visible.
    - A function that may raise returns a [result]; functions that touch the
      store or the memo cache are written in the monad [M].
    - Calls to [logger] are left out: they neither change a dictionary nor
      influence a returned value or a raised exception. *)

From stdpp Require Import gmap strings list fin_maps.
From Stdlib Require Import Ascii String ZArith Lia.

Local Open Scope Z_scope.

(** ** Python strings *)

Module PyStr.

(** [str.isspace] of a single code point below 256. *)
Definition isspace (c : ascii) : bool :=
  let n := Z.of_N (N_of_ascii c) in
  ((9 <=? n) && (n <=? 13)) || ((28 <=? n) && (n <=? 32))
  || (n =? 133) || (n =? 160).

(** [s.lstrip()] *)
Fixpoint lstrip (s : string) : string :=
  match s with
  | EmptyString => EmptyString
  | String c r => if isspace c then lstrip r else s
  end.

(** [s.rstrip()] *)
Fixpoint rstrip (s : string) : string :=
  match s with
  | EmptyString => EmptyString
  | String c r =>
      match rstrip r with
      | EmptyString => if isspace c then EmptyString else String c EmptyString
      | r' => String c r'
      end
  end.

(** [s.strip()]: the leading run of whitespace is skipped, then the
    trailing one. *)
Definition strip (s : string) : string := rstrip (lstrip s).

(** [len(s)] *)
Definition len (s : string) : Z := Z.of_nat (String.length s).

(** [bool(s)] *)
Definition truthy (s : string) : bool :=
  match s with EmptyString => false | _ => true end.

(** [c * n] for a one-character string [c]; a negative count gives the
    empty string. *)
Definition repeat (c : ascii) (n : Z) : string :=
  Nat.iter (Z.to_nat n) (String c) EmptyString.

(** [s[:n]] for [0 <= n]. *)
Fixpoint prefix (n : nat) (s : string) : string :=
  match n, s with
  | S n', String c r => String c (prefix n' r)
  | _, _ => EmptyString
  end.

(** [sub in s] *)
Fixpoint contains (sub s : string) : bool :=
  String.prefix sub s ||
  match s with
  | EmptyString => false
  | String _ r => contains sub r
  end.

Definition backslash : ascii := Eval cbv in ascii_of_N 92.
Definition dquote : ascii := Eval cbv in ascii_of_N 34.
Definition squote : ascii := Eval cbv in ascii_of_N 39.

Definition hexdigit (n : Z) : ascii :=
  ascii_of_N (Z.to_N (if n <? 10 then 48 + n else 87 + n)).

(** [str.isprintable] of a code point in 128..255. *)
Definition isprintable_high (n : Z) : bool :=
  (161 <=? n) && negb (n =? 173).

(** The text [repr] writes for one code point, [quote] being the
    delimiter chosen for the whole string. *)
Definition repr_char (quote c : ascii) : string :=
  let n := Z.of_N (N_of_ascii c) in
  let esc (x : string) := String backslash x in
  let hex := esc ("x" +:+ String (hexdigit (n / 16)) (String (hexdigit (n mod 16)) "")) in
  if bool_decide (c = quote) || (n =? 92) then esc (String c "")
  else if n =? 9 then esc "t"
  else if n =? 10 then esc "n"
  else if n =? 13 then esc "r"
  else if (n <? 32) || (n =? 127) then hex
  else if n <? 127 then String c ""
  else if isprintable_high n then String c ""
  else hex.

Fixpoint has_char (c : ascii) (s : string) : bool :=
  match s with
  | EmptyString => false
  | String d r => bool_decide (c = d) || has_char c r
  end.

Fixpoint repr_body (quote : ascii) (s : string) : string :=
  match s with
  | EmptyString => EmptyString
  | String c r => repr_char quote c +:+ repr_body quote r
  end.

(** [repr(s)]: single quotes, unless the string has a single quote and no
    double quote. *)
Definition repr (s : string) : string :=
  let quote : ascii :=
    if has_char squote s && negb (has_char dquote s) then dquote else squote in
  String quote (repr_body quote s) +:+ String quote "".

(** [s.split(sep)] for a separator [sep] of one character: the pieces
    between the occurrences of [sep], empty pieces included; never an empty
    list. *)
Fixpoint split (sep : ascii) (s : string) : list string :=
  match s with
  | EmptyString => [EmptyString]
  | String c r =>
      if bool_decide (c = sep) then EmptyString :: split sep r
      else
        match split sep r with
        | piece :: pieces => String c piece :: pieces
        | [] => [String c EmptyString]
        end
  end.

(** [sep.join(pieces)] for a separator of one character. *)
Fixpoint join (sep : ascii) (pieces : list string) : string :=
  match pieces with
  | [] => EmptyString
  | [piece] => piece
  | piece :: rest => piece +:+ String sep (join sep rest)
  end.

(** [s[i]] for [0 <= i], [None] past the end. *)
Definition item (i : nat) (s : string) : option ascii := String.get i s.

End PyStr.

(** ** Python dictionaries of strings *)

Module PyDict.

Definition dict : Type := list (string * string).

(** [d.get(k)] *)
Fixpoint get {V : Type} (d : list (string * V)) (k : string) : option V :=
  match d with
  | [] => None
  | (k', v) :: r => if bool_decide (k' = k) then Some v else get r k
  end.

(** [list(d.keys())] *)
Definition keys {V : Type} (d : list (string * V)) : list string := d.*1.

(** [d[k] = v]: an existing key keeps its place, a new key goes last. *)
Fixpoint setitem (d : dict) (k v : string) : dict :=
  match d with
  | [] => [(k, v)]
  | (k', v') :: r =>
      if bool_decide (k' = k) then (k, v) :: r else (k', v') :: setitem r k v
  end.

(** [bool(d)] *)
Definition truthy {V : Type} (d : list (string * V)) : bool :=
  match d with [] => false | _ => true end.

Fixpoint repr_items (d : dict) : string :=
  match d with
  | [] => ""
  | [(k, v)] => PyStr.repr k +:+ ": " +:+ PyStr.repr v
  | (k, v) :: r => PyStr.repr k +:+ ": " +:+ PyStr.repr v +:+ ", " +:+ repr_items r
  end.

(** [repr(d)], which is also [str(d)] and what an f-string inserts. *)
Definition repr (d : dict) : string := "{" +:+ repr_items d +:+ "}".

End PyDict.

(** ** Objects, exceptions and the monad of the module *)

Definition loc : Type := positive.

(** The exceptions the two modules raise or let through.
    [DanglingReference] is the model's own: it is what reading a reference
    outside the store gives.  Python has no such reference, and
    [config_section_allocated] below shows that a resolution meets none. *)
Inductive exn : Type :=
| ValueError (msg : string)
| FileNotFoundError (path : string)
| TOMLDecodeError (path : string)
| KeyError (key : string)
| ClickException (message : string)
| DanglingReference (l : loc).

Inductive result (A : Type) : Type :=
| Ok (a : A)
| Raise (e : exn).
Arguments Ok {A} a.
Arguments Raise {A} e.

(** The arguments of a call [config_section(config_file, section)], which
    are also the key [lru_cache] files the result under. *)
Definition cache_key : Type := option string * string.

(** What the process holds: the dictionaries that exist, and the memo table
    of [config_section], most recently used entry first. *)
Record pystate : Type := PyState {
  heap : gmap loc PyDict.dict;
  cache : list (cache_key * loc)
}.

(** What the process finds around it.  A file is known by what [toml.load]
    makes of it. *)
Inductive fsnode : Type :=
| TomlFile (doc : list (string * PyDict.dict))
| NotToml.

Record world : Type := World {
  fs : gmap string fsnode;
  environ : gmap string string;
  expanduser : string -> string
}.

Definition M (A : Type) : Type := pystate -> result A * pystate.

Definition ret {A : Type} (a : A) : M A := fun st => (Ok a, st).

Definition raise {A : Type} (e : exn) : M A := fun st => (Raise e, st).

Definition bind {A B : Type} (m : M A) (k : A -> M B) : M B :=
  fun st =>
    match m st with
    | (Ok a, st') => k a st'
    | (Raise e, st') => (Raise e, st')
    end.

Notation "'let*' x ':=' m 'in' k" := (bind m (fun x => k))
  (at level 10, x pattern, m at level 100, k at level 200).

(** [for x in xs: body(x)] *)
Fixpoint for_each {A : Type} (xs : list A) (body : A -> M unit) : M unit :=
  match xs with
  | [] => ret tt
  | x :: r => let* _ := body x in for_each r body
  end.

(** Reading the dictionary behind a reference. *)
Definition deref (l : loc) : M PyDict.dict :=
  fun st =>
    match heap st !! l with
    | Some d => (Ok d, st)
    | None => (Raise (DanglingReference l), st)
    end.

(** A new dictionary object with the given items. *)
Definition alloc (d : PyDict.dict) : M loc :=
  fun st =>
    let l := fresh (dom (heap st)) in
    (Ok l, PyState (<[l := d]> (heap st)) (cache st)).

(** [l[k] = v] on the object behind [l]. *)
Definition setitem_at (l : loc) (k v : string) : M unit :=
  fun st =>
    match heap st !! l with
    | Some d => (Ok tt, PyState (<[l := PyDict.setitem d k v]> (heap st)) (cache st))
    | None => (Raise (DanglingReference l), st)
    end.

(** [copy.deepcopy(l)]: the values are immutable strings, so the copy is one
    new dictionary with the same items. *)
Definition deepcopy (l : loc) : M loc :=
  let* d := deref l in alloc d.

(** ** config.py *)

Module Config.

(** The module-level dictionary [default_zenodo] is one object of the
    store, created with these items when the module is loaded. *)
Definition default_zenodo : loc := 1%positive.

Definition default_zenodo_items : PyDict.dict :=
  [ ("ZENODO_ACCESS_TOKEN", "Change me");
    ("ZENODO_SANDBOX_ACCESS_TOKEN", "Change me") ].

(** The process right after the import of the module. *)
Definition initial : pystate :=
  PyState {[ default_zenodo := default_zenodo_items ]} [].

Definition settings_name : string := ".zenodo-deposit-settings.toml".

(** [os.path.exists(file)]; the empty path names nothing. *)
Definition os_path_exists (w : world) (file : string) : bool :=
  PyStr.truthy file && bool_decide (is_Some (fs w !! file)).

Fixpoint first_file_that_exists (w : world) (files : list string)
  : option string :=
  match files with
  | [] => None
  | file :: rest =>
      if os_path_exists w file then Some file
      else first_file_that_exists w rest
  end.

(** The dictionaries [toml.load] builds for the tables of a document. *)
Fixpoint load_tables (doc : list (string * PyDict.dict))
  : M (list (string * loc)) :=
  match doc with
  | [] => ret []
  | (name, items) :: rest =>
      let* l := alloc items in
      let* ls := load_tables rest in
      ret ((name, l) :: ls)
  end.

(** [with open(file, "rb") as f: config = toml.load(f); return config] *)
Definition open_and_load (w : world) (file : string)
  : M (list (string * loc)) :=
  match fs w !! file with
  | None => raise (FileNotFoundError file)
  | Some NotToml => raise (TOMLDecodeError file)
  | Some (TomlFile doc) => load_tables doc
  end.

(** [bool(file)] for [file] a string or [None]. *)
Definition provided (file : option string) : bool :=
  match file with
  | Some f => PyStr.truthy f
  | None => false
  end.

(** The last two lines of [read_config_file]. *)
Definition use_default : M (list (string * loc)) :=
  let* l := deepcopy default_zenodo in
  ret [("zenodo", l)].

Definition read_config_file (w : world) (file : option string)
  : M (list (string * loc)) :=
  if provided file then
    open_and_load w (default "" file)
  else
    let first_config :=
      first_file_that_exists w
        [settings_name; expanduser w ("~/" +:+ settings_name)] in
    if provided first_config then
      open_and_load w (default "" first_config)
    else use_default.

Definition section_not_found (section : string) : string :=
  "Section " +:+ section +:+ " not found in the configuration file".

(** The loop of [config_section] over the keys of the copy. *)
Definition overlay (w : world) (l : loc) (keys : list string) : M unit :=
  for_each keys (fun key =>
    match environ w !! key with
    | Some v => setitem_at l key v
    | None => ret tt
    end).

(** The items the loop leaves in a dictionary that held [d]. *)
Definition overlay_items (env : gmap string string) (d : PyDict.dict)
    (keys : list string) : PyDict.dict :=
  fold_left
    (fun acc key =>
       match env !! key with
       | Some v => PyDict.setitem acc key v
       | None => acc
       end)
    keys d.

(** The body of [config_section], as [lru_cache] calls it on a miss. *)
Definition config_section_body (w : world) (args : cache_key) : M loc :=
  let '(config_file, section) := args in
  let* config := read_config_file w config_file in
  match PyDict.get config section with
  | None => raise (ValueError (section_not_found section))
  | Some found =>
      let* items := deref found in
      if negb (PyDict.truthy items) then
        raise (ValueError (section_not_found section))
      else
        let* config_section := deepcopy found in
        let* keys := (let* d := deref config_section in ret (PyDict.keys d)) in
        let* _ := overlay w config_section keys in
        ret config_section
  end.

Definition maxsize : nat := 32.

Definition cache_get (c : list (cache_key * loc)) (key : cache_key)
  : option loc :=
  snd <$> find (fun e => bool_decide (fst e = key)) c.

Definition cache_drop (c : list (cache_key * loc)) (key : cache_key)
  : list (cache_key * loc) :=
  filter (fun e => fst e ≠ key) c.

(** [@lru_cache(maxsize=32)]: a hit returns the stored object and makes
    its entry the most recent one; a miss runs the function, and a
    returned value is stored, the least recently used entry making room
    when the table is full.  A raised exception is not stored. *)
Definition lru_cache (f : cache_key -> M loc) (key : cache_key) : M loc :=
  fun st =>
    match cache_get (cache st) key with
    | Some l =>
        (Ok l, PyState (heap st) ((key, l) :: cache_drop (cache st) key))
    | None =>
        match f key st with
        | (Ok l, st') =>
            (Ok l, PyState (heap st') (take maxsize ((key, l) :: cache st')))
        | (Raise e, st') => (Raise e, st')
        end
    end.

Definition config_section (w : world) (config_file : option string)
    (section : string) : M loc :=
  lru_cache (config_section_body w) (config_file, section).

Definition zenodo_config (w : world) (config_file : option string) : M loc :=
  config_section w config_file "zenodo".

Definition sandbox_message (config : PyDict.dict) : string :=
  "ZENODO_SANDBOX_ACCESS_TOKEN is not set or invalid, sandbox being used. Config: "
  +:+ PyDict.repr config.

Definition production_message (config : PyDict.dict) : string :=
  "ZENODO_ACCESS_TOKEN is not set or invalid in production environment. Config: "
  +:+ PyDict.repr config.

(** [not token or token.strip() == "" or token.strip() == default_zenodo[key]],
    evaluated left to right; the subscript raises [KeyError] on a missing
    key. *)
Definition token_rejected (token : option string) (key : string) : M bool :=
  match token with
  | None => ret true
  | Some t =>
      if negb (PyStr.truthy t) then ret true
      else if bool_decide (PyStr.strip t = "") then ret true
      else
        let* dz := deref default_zenodo in
        match PyDict.get dz key with
        | None => raise (KeyError key)
        | Some placeholder => ret (bool_decide (PyStr.strip t = placeholder))
        end
  end.

Definition validate_zenodo_config (config : loc) (use_sandbox : bool)
  : M bool :=
  let* items := deref config in
  if use_sandbox then
    let token := PyDict.get items "ZENODO_SANDBOX_ACCESS_TOKEN" in
    let* bad := token_rejected token "ZENODO_SANDBOX_ACCESS_TOKEN" in
    if bad then raise (ValueError (sandbox_message items)) else ret true
  else
    let token := PyDict.get items "ZENODO_ACCESS_TOKEN" in
    let* bad := token_rejected token "ZENODO_ACCESS_TOKEN" in
    if bad then raise (ValueError (production_message items)) else ret true.

End Config.

(** ** cli.py *)

Module Cli.

(** [token[:4] + "*" * (len(token) - 4)] *)
Definition hide_access_token (token : string) : string :=
  PyStr.prefix 4 token +:+ PyStr.repeat "*" (PyStr.len token - 4).

(** [cli] up to the end of its [try]: the configuration is resolved, then
    validated, and a [ValueError] of the validation is raised again as a
    [click.ClickException]. *)
Definition cli (w : world) (sandbox : bool) (config_file : option string)
  : M loc :=
  let* config := Config.zenodo_config w config_file in
  fun st =>
    match Config.validate_zenodo_config config sandbox st with
    | (Raise (ValueError e), st') =>
        (Raise (ClickException ("Invalid configuration: " +:+ e)), st')
    | (Raise e, st') => (Raise e, st')
    | (Ok _, st') => (Ok config, st')
    end.

(** What a list handed to [flatten] holds: a value that is no list, or a
    list of such elements. *)
#[warnings="-register-all"]
Inductive element (A : Type) : Type :=
| Atom (a : A)
| Sub (lyst : list (element A)).
Arguments Atom {A} a.
Arguments Sub {A} lyst.

(** One turn of the loop of [_flatten]: what the element [el] yields. *)
Fixpoint _flatten_el {A : Type} (el : element A) : list A :=
  match el with
  | Sub lyst => flat_map _flatten_el lyst
  | Atom a => [a]
  end.

(** The generator [_flatten], by what it yields. *)
Definition _flatten {A : Type} (lyst : list (element A)) : list A :=
  flat_map _flatten_el lyst.

Definition flatten {A : Type} (lists : list (element A)) : list A :=
  _flatten lists.

(** [frozenset(d.items())] *)
Definition frozen_items (d : PyDict.dict) : gset (string * string) :=
  list_to_set d.

(** [m[k] = v] on a dictionary with keys of any hashable type: an existing
    key keeps its place, a new key goes last. *)
Fixpoint setitem {K V : Type} `{EqDecision K}
    (m : list (K * V)) (k : K) (v : V) : list (K * V) :=
  match m with
  | [] => [(k, v)]
  | (k', v') :: r =>
      if decide (k' = k) then (k, v) :: r else (k', v') :: setitem r k v
  end.

(** [{frozenset(d.items()): d for d in dict_list}] *)
Definition by_items (dict_list : list PyDict.dict)
  : list (gset (string * string) * PyDict.dict) :=
  fold_left (fun m d => setitem m (frozen_items d) d) dict_list [].

Definition get_unique_dicts (dict_list : list PyDict.dict) : list PyDict.dict :=
  (by_items dict_list).*2.

(** [[x.strip() for x in flatten([k.split(",") for k in keywords])]], what
    [deposit] and [upload] store as the keywords. *)
Definition stored_keywords (keywords : list string) : list string :=
  map PyStr.strip
    (flatten (map (fun k => Sub (map Atom (PyStr.split "," k))) keywords)).

(** [key, value = var.split(":")] of [upload]; [None] stands for the
    [ValueError] of an unpacking that does not find two values. *)
Definition unpack_variable (var : string) : option (string * string) :=
  match PyStr.split ":" var with
  | [key; value] => Some (key, value)
  | _ => None
  end.

End Cli.

(** ** The vocabulary of the specification *)

Module Spec.

(** The credential key the sandbox flag selects. *)
Definition selected_key (use_sandbox : bool) : string :=
  if use_sandbox then "ZENODO_SANDBOX_ACCESS_TOKEN" else "ZENODO_ACCESS_TOKEN".

(** The built-in placeholder value. *)
Definition placeholder : string := "Change me".

(** A token is unusable when the key is absent, or its value is empty
    after trimming, or equals the placeholder after trimming. *)
Definition unusable (token : option string) : Prop :=
  match token with
  | None => True
  | Some t => PyStr.strip t = "" ∨ PyStr.strip t = placeholder
  end.

Global Instance unusable_dec (token : option string) : Decision (unusable token).
Proof. destruct token; simpl; apply _. Defined.

(** The store still holds the built-in default as the module created it. *)
Definition default_intact (st : pystate) : Prop :=
  heap st !! Config.default_zenodo = Some Config.default_zenodo_items.

(** The configuration sources of source discovery. *)
Inductive source : Type :=
| Explicit (path : string)
| Discovered (path : string)
| BuiltIn.

(** Source discovery as the specification orders it: the explicit path if
    one is provided, else the settings file of the working directory if it
    exists, else the one of the home directory if it exists, else the
    built-in default.  An explicit path counts as provided when it is a
    non-empty string. *)
Definition discover (w : world) (file : option string) : source :=
  match file with
  | Some (String c p) => Explicit (String c p)
  | _ =>
      let here := Config.settings_name in
      let home := expanduser w ("~/" +:+ Config.settings_name) in
      if Config.os_path_exists w here then Discovered here
      else if Config.os_path_exists w home then Discovered home
      else BuiltIn
  end.

(** Source reading of a discovered source. *)
Definition read (w : world) (s : source) : M (list (string * loc)) :=
  match s with
  | Explicit path | Discovered path => Config.open_and_load w path
  | BuiltIn => Config.use_default
  end.

(** The class of an exception. *)
Definition exn_class (e : exn) : string :=
  match e with
  | ValueError _ => "ValueError"
  | FileNotFoundError _ => "FileNotFoundError"
  | TOMLDecodeError _ => "TOMLDecodeError"
  | KeyError _ => "KeyError"
  | ClickException _ => "ClickException"
  | DanglingReference _ => "DanglingReference"
  end.

(** The outcome of a validation: the value returned, or the class of the
    exception raised. *)
Definition outcome (r : result bool * pystate) : bool + string :=
  match fst r with
  | Ok b => inl b
  | Raise e => inr (exn_class e)
  end.

(** One store extends another: every object of the first is in the second
    with the same items. *)
Definition extends (st st' : pystate) : Prop :=
  heap st ⊆ heap st'.

(** The state is one the module can be in: the default is intact and the
    memo table does not hold it. *)
Definition well_formed (st : pystate) : Prop :=
  default_intact st ∧ Forall (fun e => snd e ≠ Config.default_zenodo) (cache st).

(** The memo table is one [lru_cache] can hold: no two entries for the same
    arguments, and no more than [maxsize] entries. *)
Definition cache_ok (st : pystate) : Prop :=
  NoDup (cache st).*1 ∧ (List.length (cache st) ≤ Config.maxsize)%nat.

End Spec.

(** ** Worlds and stores used as examples *)

Module Examples.

Definition home (p : string) : string :=
  match p with
  | String _ rest => "/home/user" +:+ rest
  | EmptyString => EmptyString
  end.

(** No settings file, nothing in the environment. *)
Definition quiet : world := World ∅ ∅ home.

(** No settings file, the production token in the environment. *)
Definition token_set : world :=
  World ∅ {[ "ZENODO_ACCESS_TOKEN" := "prod-secret-token" ]} home.

(** A settings file in the working directory and another in the home
    directory. *)
Definition two_files : world :=
  World
    {[ ".zenodo-deposit-settings.toml" :=
         TomlFile [("zenodo", [("ZENODO_ACCESS_TOKEN", "here-token")])];
       "/home/user/.zenodo-deposit-settings.toml" :=
         TomlFile [("zenodo", [("ZENODO_ACCESS_TOKEN", "home-token")])] ]}
    ∅ home.

(** An explicit file with a [zenodo] table and an empty [extra] table; the
    environment overrides one key and has a variable the table lacks. *)
Definition explicit_file : world :=
  World
    {[ "conf.toml" :=
         TomlFile [("zenodo", [("ZENODO_ACCESS_TOKEN", "file-token");
                               ("ZENODO_SANDBOX_ACCESS_TOKEN", "sandbox-token")]);
                   ("extra", [])] ]}
    {[ "ZENODO_ACCESS_TOKEN" := "env-token"; "FOO" := "bar" ]}
    home.

(** A store with the default and one resolved configuration. *)
Definition resolved : pystate :=
  PyState
    {[ Config.default_zenodo := Config.default_zenodo_items;
       2%positive := [("ZENODO_ACCESS_TOKEN", "abc123")] ]}
    [].

(** A store with two sections that agree on the production token and
    differ on the sandbox token. *)
Definition two_sections : pystate :=
  PyState
    {[ Config.default_zenodo := Config.default_zenodo_items;
       2%positive := [("ZENODO_ACCESS_TOKEN", "abc123")];
       3%positive := [("ZENODO_SANDBOX_ACCESS_TOKEN", "  ");
                      ("ZENODO_ACCESS_TOKEN", "abc123")] ]}
    [].

(** A settings file in the working directory that is not TOML, and a good
    one in the home directory. *)
Definition broken_here : world :=
  World
    {[ ".zenodo-deposit-settings.toml" := NotToml;
       "/home/user/.zenodo-deposit-settings.toml" :=
         TomlFile [("zenodo", [("ZENODO_ACCESS_TOKEN", "home-token")])] ]}
    ∅ home.

(** A process whose memo table is full: 32 resolutions of differently named
    sections, the one named [A] being the most recent. *)
Definition full_table : pystate :=
  PyState
    {[ Config.default_zenodo := Config.default_zenodo_items;
       2%positive := [("ZENODO_ACCESS_TOKEN", "abc123")] ]}
    (map (fun n => ((Some "conf.toml", String (ascii_of_nat (65 + n)) EmptyString),
                    2%positive))
         (seq 0 32)).

(** A settings file with the production token only, and the sandbox token
    in the environment. *)
Definition sandbox_in_env : world :=
  World
    {[ "conf.toml" := TomlFile [("zenodo", [("ZENODO_ACCESS_TOKEN", "file-token")])] ]}
    {[ "ZENODO_SANDBOX_ACCESS_TOKEN" := "good-token" ]}
    home.

End Examples.

(** * Properties *)

Example strip_example : PyStr.strip "  Change me  " = "Change me".
Proof. reflexivity. Qed.

Example repr_example :
  PyDict.repr [("ZENODO_ACCESS_TOKEN", "Change me"); ("k", "v")]
  = "{'ZENODO_ACCESS_TOKEN': 'Change me', 'k': 'v'}".
Proof. vm_compute. reflexivity. Qed.

Example hide_example : Cli.hide_access_token "abcdefgh" = "abcd****".
Proof. reflexivity. Qed.

(** ** Facts about dictionaries *)

Section dict_facts.
Import PyDict.
Import Config.

Lemma get_None_keys {V : Type} (d : list (string * V)) (k : string) :
  get d k = None ↔ k ∉ keys d.
Proof.
  unfold keys. induction d as [|[k' v] d IH]; simpl.
  - split; [intros _; apply not_elem_of_nil | done].
  - case_bool_decide as Hk.
    + subst. split; [done | intros H; exfalso; apply H; left].
    + rewrite IH, not_elem_of_cons. split; [intros ?; split; [congruence | done] | by intros [_ ?]].
Qed.

Lemma get_Some_keys {V : Type} (d : list (string * V)) (k : string) (v : V) :
  get d k = Some v → k ∈ keys d.
Proof.
  intros H. destruct (decide (k ∈ keys d)) as [|Hn]; [done|].
  apply get_None_keys in Hn. congruence.
Qed.

Lemma keys_setitem (d : dict) (k v : string) :
  k ∈ keys d → keys (setitem d k v) = keys d.
Proof.
  unfold keys. induction d as [|[k' v'] d IH]; simpl; intros Hin.
  - by apply elem_of_nil in Hin.
  - case_bool_decide as Hk; simpl.
    + by subst.
    + f_equal. apply IH. apply elem_of_cons in Hin as [->|]; done.
Qed.

Lemma get_setitem_eq (d : dict) (k v : string) :
  get (setitem d k v) k = Some v.
Proof.
  induction d as [|[k' v'] d IH]; simpl.
  - by rewrite bool_decide_eq_true_2.
  - case_bool_decide as Hk; simpl.
    + by rewrite bool_decide_eq_true_2.
    + by rewrite bool_decide_eq_false_2.
Qed.

Lemma get_setitem_ne (d : dict) (k k' v : string) :
  k ≠ k' → get (setitem d k v) k' = get d k'.
Proof.
  intros Hne. induction d as [|[k0 v0] d IH]; simpl.
  - by rewrite bool_decide_eq_false_2.
  - case_bool_decide as Hk; simpl.
    + subst k0. by rewrite !bool_decide_eq_false_2.
    + by rewrite IH.
Qed.

Lemma keys_overlay_items (env : gmap string string) (ks : list string) (d : dict) :
  ks ⊆ keys d → keys (overlay_items env d ks) = keys d.
Proof.
  unfold overlay_items. revert d.
  induction ks as [|k ks IH]; intros d Hsub; simpl; [done|].
  assert (k ∈ keys d) as Hk by (apply Hsub; left).
  assert (ks ⊆ keys d) as Hks by (intros x Hx; apply Hsub; by right).
  destruct (env !! k) as [v|]; [|by apply IH].
  rewrite IH; rewrite keys_setitem; done.
Qed.

Lemma get_overlay_items (env : gmap string string) (ks : list string)
    (d : dict) (k : string) :
  get (overlay_items env d ks) k =
    if bool_decide (k ∈ ks) then
      match env !! k with Some v => Some v | None => get d k end
    else get d k.
Proof.
  unfold overlay_items. revert d.
  induction ks as [|k0 ks IH]; intros d; simpl; [done|].
  rewrite IH. clear IH.
  destruct (decide (k = k0)) as [->|Hne].
  - rewrite (bool_decide_eq_true_2 (k0 ∈ k0 :: ks)) by left.
    destruct (env !! k0) as [v|] eqn:He.
    + rewrite get_setitem_eq. by case_bool_decide.
    + by case_bool_decide.
  - assert (bool_decide (k ∈ k0 :: ks) = bool_decide (k ∈ ks)) as ->.
    { apply bool_decide_ext. rewrite elem_of_cons. tauto. }
    destruct (env !! k0) as [v|]; [|done].
    by rewrite get_setitem_ne.
Qed.

(** The overlay of a whole dictionary, key by key. *)
Lemma get_overlay_all (env : gmap string string) (d : dict) (k : string) :
  get (overlay_items env d (keys d)) k =
    match get d k with
    | None => None
    | Some v => Some (default v (env !! k))
    end.
Proof.
  rewrite get_overlay_items. case_bool_decide as Hk.
  - destruct (get d k) as [v|] eqn:Hg.
    + by destruct (env !! k).
    + apply get_None_keys in Hg. done.
  - apply get_None_keys in Hk. by rewrite Hk.
Qed.

End dict_facts.

(** ** Facts about strings *)

Section str_facts.

Lemma prefix_app (a b : string) : String.prefix a (a +:+ b) = true.
Proof.
  induction a as [|c a IH]; simpl; [by destruct b|].
  destruct (ascii_dec c c); [apply IH | done].
Qed.

Lemma contains_prefix (sub s : string) :
  String.prefix sub s = true → PyStr.contains sub s = true.
Proof. intros H. destruct s; simpl in *; by rewrite H. Qed.

Lemma contains_app (a sub b : string) :
  PyStr.contains sub (a +:+ sub +:+ b) = true.
Proof.
  induction a as [|c a IH].
  - change (EmptyString +:+ sub +:+ b) with (sub +:+ b).
    apply contains_prefix, prefix_app.
  - change (String c a +:+ sub +:+ b) with (String c (a +:+ sub +:+ b)).
    simpl. rewrite IH. apply orb_true_r.
Qed.

End str_facts.

(** ** Facts about the store *)

Section store_facts.
Import Config Spec.

Lemma bind_ok {A B : Type} (m : M A) (k : A → M B) st a st' :
  m st = (Ok a, st') → bind m k st = k a st'.
Proof. unfold bind. by intros ->. Qed.

Lemma bind_raise {A B : Type} (m : M A) (k : A → M B) st e st' :
  m st = (Raise e, st') → bind m k st = (Raise e, st').
Proof. unfold bind. by intros ->. Qed.

Lemma deref_run l st d : heap st !! l = Some d → deref l st = (Ok d, st).
Proof. unfold deref. by intros ->. Qed.

Lemma deref_dangling l st :
  heap st !! l = None → deref l st = (Raise (DanglingReference l), st).
Proof. unfold deref. by intros ->. Qed.

Lemma extends_refl st : extends st st.
Proof. by unfold extends. Qed.

Lemma extends_trans st1 st2 st3 :
  extends st1 st2 → extends st2 st3 → extends st1 st3.
Proof. unfold extends. intros H1 H2. by etrans. Qed.

Lemma extends_lookup st st' l d :
  extends st st' → heap st !! l = Some d → heap st' !! l = Some d.
Proof. unfold extends. intros Hsub Hl. by eapply lookup_weaken. Qed.

Lemma extends_fresh st st' l :
  extends st st' → heap st' !! l = None → heap st !! l = None.
Proof.
  intros Hsub Hl. destruct (heap st !! l) as [d|] eqn:E; [|done].
  apply (extends_lookup _ _ _ _ Hsub) in E. congruence.
Qed.

Lemma fresh_unused (h : gmap loc PyDict.dict) : h !! fresh (dom h) = None.
Proof. apply not_elem_of_dom, is_fresh. Qed.

Lemma alloc_run d st :
  alloc d st =
    (Ok (fresh (dom (heap st))),
     PyState (<[fresh (dom (heap st)) := d]> (heap st)) (cache st)).
Proof. done. Qed.

Lemma alloc_extends d st :
  extends st (PyState (<[fresh (dom (heap st)) := d]> (heap st)) (cache st)).
Proof. unfold extends. simpl. apply insert_subseteq, fresh_unused. Qed.

(** [toml.load] builds one new dictionary per table and touches nothing
    else. *)
Lemma load_tables_run doc st :
  ∃ config st',
    load_tables doc st = (Ok config, st')
    ∧ extends st st' ∧ cache st' = cache st
    ∧ ∀ name,
        match PyDict.get doc name with
        | Some items =>
            ∃ l, PyDict.get config name = Some l
                 ∧ heap st' !! l = Some items ∧ heap st !! l = None
        | None => PyDict.get config name = None
        end.
Proof.
  revert st. induction doc as [|[name0 items0] doc IH]; intros st.
  - exists [], st. split; [done|]. split; [apply extends_refl|]. by split.
  - simpl.
    set (l0 := fresh (dom (heap st))).
    set (st1 := PyState (<[l0 := items0]> (heap st)) (cache st)).
    destruct (IH st1) as (config & st' & Hrun & Hext & Hcache & Hget).
    exists ((name0, l0) :: config), st'.
    split; [|split; [|split]].
    + unfold bind at 1. rewrite alloc_run. fold l0 st1.
      unfold bind at 1. by rewrite Hrun.
    + eapply extends_trans; [apply alloc_extends | exact Hext].
    + by rewrite Hcache.
    + intros name. simpl. case_bool_decide as Hn.
      * exists l0. split; [done|]. split; [|apply fresh_unused].
        eapply extends_lookup; [exact Hext|]. subst st1. simpl.
        apply lookup_insert_eq.
      * specialize (Hget name). destruct (PyDict.get doc name); [|done].
        destruct Hget as (l & H1 & H2 & H3). exists l.
        repeat split; [done..|].
        eapply extends_fresh; [apply alloc_extends | exact H3].
Qed.

Lemma open_and_load_extends w file st r st' :
  open_and_load w file st = (r, st') → extends st st' ∧ cache st' = cache st.
Proof.
  unfold open_and_load.
  destruct (fs w !! file) as [[doc|]|]; unfold raise.
  - destruct (load_tables_run doc st) as (c & s & -> & ? & ? & _).
    by intros [= <- <-].
  - intros [= <- <-]. split; [apply extends_refl | done].
  - intros [= <- <-]. split; [apply extends_refl | done].
Qed.

(** The fall-back of [read_config_file], run on a store that holds the
    default. *)
Lemma use_default_run st d :
  heap st !! default_zenodo = Some d →
  use_default st =
    (Ok [("zenodo", fresh (dom (heap st)))],
     PyState (<[fresh (dom (heap st)) := d]> (heap st)) (cache st)).
Proof.
  intros Hd. unfold use_default, deepcopy, bind, deref. by rewrite Hd.
Qed.

Lemma use_default_extends st r st' :
  use_default st = (r, st') → extends st st' ∧ cache st' = cache st.
Proof.
  destruct (heap st !! default_zenodo) as [d|] eqn:Hd.
  - rewrite (use_default_run _ _ Hd). intros [= <- <-].
    split; [apply alloc_extends | done].
  - unfold use_default, deepcopy, bind, deref. rewrite Hd.
    intros [= <- <-]. split; [apply extends_refl | done].
Qed.

Lemma read_config_file_extends w file st r st' :
  read_config_file w file st = (r, st') → extends st st' ∧ cache st' = cache st.
Proof.
  unfold read_config_file.
  destruct (provided file); [apply open_and_load_extends|].
  destruct (provided _); [apply open_and_load_extends | apply use_default_extends].
Qed.

(** The loop of [config_section], run on the object it is given. *)
Lemma overlay_run w l keys st d :
  heap st !! l = Some d →
  overlay w l keys st =
    (Ok tt, PyState (<[l := overlay_items (environ w) d keys]> (heap st)) (cache st)).
Proof.
  unfold overlay, overlay_items. revert st d.
  induction keys as [|k keys IH]; intros st d Hl; simpl.
  - unfold ret. rewrite insert_id by done. by destruct st.
  - destruct (environ w !! k) as [v|].
    + erewrite bind_ok; last first.
      { unfold setitem_at. rewrite Hl. reflexivity. }
      erewrite IH; [|simpl; apply lookup_insert_eq].
      simpl. by rewrite insert_insert_eq.
    + erewrite bind_ok; [|reflexivity]. by apply IH.
Qed.

End store_facts.

(** ** Facts about [config_section] *)

Section resolution_facts.
Import Config Spec.

Lemma body_missing w file section st config st1 :
  read_config_file w file st = (Ok config, st1) →
  PyDict.get config section = None →
  config_section_body w (file, section) st
  = (Raise (ValueError (section_not_found section)), st1).
Proof.
  intros Hread Hget. unfold config_section_body.
  rewrite (bind_ok _ _ _ _ _ Hread). by rewrite Hget.
Qed.

Lemma body_empty w file section st config st1 found :
  read_config_file w file st = (Ok config, st1) →
  PyDict.get config section = Some found →
  heap st1 !! found = Some [] →
  config_section_body w (file, section) st
  = (Raise (ValueError (section_not_found section)), st1).
Proof.
  intros Hread Hget Hfound. unfold config_section_body.
  rewrite (bind_ok _ _ _ _ _ Hread). rewrite Hget.
  by rewrite (bind_ok _ _ _ _ _ (deref_run _ _ _ Hfound)).
Qed.

Lemma body_found w file section st config st1 found items :
  read_config_file w file st = (Ok config, st1) →
  PyDict.get config section = Some found →
  heap st1 !! found = Some items →
  items ≠ [] →
  config_section_body w (file, section) st
  = (Ok (fresh (dom (heap st1))),
     PyState (<[fresh (dom (heap st1)) :=
                  overlay_items (environ w) items (PyDict.keys items)]> (heap st1))
             (cache st1)).
Proof.
  intros Hread Hget Hfound Hne. unfold config_section_body.
  rewrite (bind_ok _ _ _ _ _ Hread). rewrite Hget.
  rewrite (bind_ok _ _ _ _ _ (deref_run _ _ _ Hfound)).
  destruct items as [|item items']; [done|].
  cbn [PyDict.truthy negb].
  set (items := item :: items') in *.
  set (l := fresh (dom (heap st1))).
  erewrite bind_ok; last first.
  { unfold deepcopy. rewrite (bind_ok _ _ _ _ _ (deref_run _ _ _ Hfound)).
    apply alloc_run. }
  fold l.
  erewrite bind_ok; last first.
  { erewrite bind_ok; [reflexivity|]. apply deref_run. simpl.
    apply lookup_insert_eq. }
  erewrite bind_ok; last first.
  { apply overlay_run. simpl. apply lookup_insert_eq. }
  unfold ret. simpl. by rewrite insert_insert_eq.
Qed.

(** A resolution creates objects and changes none that existed. *)
Lemma body_extends w args st r st' :
  config_section_body w args st = (r, st') →
  extends st st' ∧ cache st' = cache st.
Proof.
  destruct args as [file section].
  destruct (read_config_file w file st) as [[config|e] st1] eqn:Hread.
  - destruct (read_config_file_extends _ _ _ _ _ Hread) as [Hext Hc].
    destruct (PyDict.get config section) as [found|] eqn:Hget.
    + destruct (heap st1 !! found) as [items|] eqn:Hfound.
      * destruct (decide (items = [])) as [->|Hne].
        -- rewrite (body_empty _ _ _ _ _ _ _ Hread Hget Hfound).
           by intros [= <- <-].
        -- rewrite (body_found _ _ _ _ _ _ _ _ Hread Hget Hfound Hne).
           intros [= <- <-]. split; [|done].
           eapply extends_trans; [exact Hext | apply alloc_extends].
      * unfold config_section_body.
        rewrite (bind_ok _ _ _ _ _ Hread). rewrite Hget.
        rewrite (bind_raise _ _ _ _ _ (deref_dangling _ _ Hfound)).
        by intros [= <- <-].
    + rewrite (body_missing _ _ _ _ _ _ Hread Hget). by intros [= <- <-].
  - destruct (read_config_file_extends _ _ _ _ _ Hread) as [Hext Hc].
    unfold config_section_body.
    rewrite (bind_raise _ _ _ _ _ Hread). by intros [= <- <-].
Qed.

Lemma lru_hit f key st l :
  cache_get (cache st) key = Some l →
  lru_cache f key st
  = (Ok l, PyState (heap st) ((key, l) :: cache_drop (cache st) key)).
Proof. unfold lru_cache. by intros ->. Qed.

Lemma lru_miss f key st :
  cache_get (cache st) key = None →
  lru_cache f key st
  = match f key st with
    | (Ok l, st') =>
        (Ok l, PyState (heap st') (take maxsize ((key, l) :: cache st')))
    | (Raise e, st') => (Raise e, st')
    end.
Proof. unfold lru_cache. by intros ->. Qed.

Lemma cache_get_head key l c : cache_get ((key, l) :: c) key = Some l.
Proof. unfold cache_get. simpl. by rewrite bool_decide_eq_true_2. Qed.

(** After a call that returned, the table holds the returned object under
    the arguments of the call. *)
Lemma lru_cache_stores f key st l st' :
  lru_cache f key st = (Ok l, st') →
  cache_get (cache st') key = Some l.
Proof.
  destruct (cache_get (cache st) key) as [l0|] eqn:Hc.
  - rewrite (lru_hit _ _ _ _ Hc). intros [= <- <-]. apply cache_get_head.
  - rewrite (lru_miss _ _ _ Hc).
    destruct (f key st) as [[l1|e] st1]; [|done].
    intros [= <- <-]. apply cache_get_head.
Qed.

Lemma config_section_extends w file section st r st' :
  config_section w file section st = (r, st') → extends st st'.
Proof.
  unfold config_section.
  destruct (cache_get (cache st) (file, section)) as [l0|] eqn:Hc.
  - rewrite (lru_hit _ _ _ _ Hc). intros [= <- <-]. by unfold extends.
  - rewrite (lru_miss _ _ _ Hc).
    destruct (config_section_body w (file, section) st) as [[l1|e] st1] eqn:Hb;
      apply body_extends in Hb as [Hext _]; intros [= <- <-]; by unfold extends in *.
Qed.

End resolution_facts.

(** ** Credential validation *)

Section validation_facts.
Import Config Spec.

Lemma strip_empty_of_falsy t : PyStr.truthy t = false → PyStr.strip t = "".
Proof. by destruct t. Qed.

(** The test of [validate_zenodo_config] decides [unusable]. *)
Lemma token_rejected_run st token use_sandbox :
  default_intact st →
  token_rejected token (selected_key use_sandbox) st
  = (Ok (bool_decide (unusable token)), st).
Proof.
  intros Hd. unfold token_rejected.
  destruct token as [t|]; [|done].
  destruct (PyStr.truthy t) eqn:Ht; simpl.
  - case_bool_decide as He.
    + unfold ret. f_equal. f_equal. symmetry. apply bool_decide_eq_true_2. by left.
    + rewrite (bind_ok _ _ _ _ _ (deref_run _ _ _ Hd)).
      assert (PyDict.get default_zenodo_items (selected_key use_sandbox)
              = Some placeholder) as -> by (by destruct use_sandbox).
      unfold ret. f_equal. f_equal. apply bool_decide_ext. tauto.
  - apply strip_empty_of_falsy in Ht.
    unfold ret. f_equal. f_equal. symmetry. apply bool_decide_eq_true_2. by left.
Qed.

Lemma validate_run st config items use_sandbox :
  heap st !! config = Some items →
  default_intact st →
  validate_zenodo_config config use_sandbox st
  = if bool_decide (unusable (PyDict.get items (selected_key use_sandbox)))
    then (Raise (ValueError
                   ((if use_sandbox then sandbox_message else production_message)
                      items)), st)
    else (Ok true, st).
Proof.
  intros Hc Hd. unfold validate_zenodo_config.
  rewrite (bind_ok _ _ _ _ _ (deref_run _ _ _ Hc)).
  destruct use_sandbox.
  - rewrite (bind_ok _ _ _ _ _ (token_rejected_run st _ true Hd)).
    cbn [selected_key]. by destruct (bool_decide _).
  - rewrite (bind_ok _ _ _ _ _ (token_rejected_run st _ false Hd)).
    cbn [selected_key]. by destruct (bool_decide _).
Qed.

(** Validation only reads. *)
Lemma validate_frame config use_sandbox st r st' :
  validate_zenodo_config config use_sandbox st = (r, st') → st' = st.
Proof.
  assert (∀ token key r0 st0,
            token_rejected token key st = (r0, st0) → st0 = st) as Htok.
  { intros token key r0 st0. unfold token_rejected.
    destruct token as [t|]; [|by intros [= _ <-]].
    destruct (negb _); [by intros [= _ <-]|].
    case_bool_decide; [by intros [= _ <-]|].
    unfold bind, deref. destruct (heap st !! default_zenodo); [|by intros [= _ <-]].
    destruct (PyDict.get _ _); by intros [= _ <-]. }
  unfold validate_zenodo_config, bind at 1, deref.
  destruct (heap st !! config) as [items|]; [|by intros [= _ <-]].
  destruct use_sandbox; unfold bind;
    match goal with
    | |- context [token_rejected ?t ?k st] =>
        destruct (token_rejected t k st) as [[[]|e] st0] eqn:E;
        apply Htok in E; subst st0; by intros [= _ <-]
    end.
Qed.

Lemma validate_returns_true config use_sandbox st b st' :
  validate_zenodo_config config use_sandbox st = (Ok b, st') → b = true.
Proof.
  unfold validate_zenodo_config, bind at 1, deref.
  destruct (heap st !! config) as [items|]; [|done].
  destruct use_sandbox; unfold bind;
    match goal with
    | |- context [token_rejected ?t ?k st] =>
        destruct (token_rejected t k st) as [[[]|e] st0]
    end; unfold raise, ret; congruence.
Qed.

End validation_facts.

Section validation.
Import Config Spec.

(** C1.  On a store that holds the built-in default, validation of a
    section raises a [ValueError] exactly when the token under the key
    the sandbox flag selects is absent, empty after trimming, or equal to
    the placeholder [Change me] after trimming; otherwise it returns
    [True]. *)
Theorem validation_rejects_exactly_unusable_tokens
    (st : pystate) (config : loc) (items : PyDict.dict) (use_sandbox : bool) :
  heap st !! config = Some items →
  default_intact st →
  ((∃ msg, validate_zenodo_config config use_sandbox st
           = (Raise (ValueError msg), st))
   ↔ unusable (PyDict.get items (selected_key use_sandbox)))
  ∧ (validate_zenodo_config config use_sandbox st = (Ok true, st)
     ↔ ¬ unusable (PyDict.get items (selected_key use_sandbox))).
Proof.
  intros Hc Hd. rewrite (validate_run _ _ _ _ Hc Hd).
  case_bool_decide as Hu; split; split; try done.
  - intros _. eauto.
  - intros [msg [=]].
Qed.

Lemma validation_rejects_exactly_unusable_tokens_witness :
  heap Examples.resolved !! 2%positive = Some [("ZENODO_ACCESS_TOKEN", "abc123")]
  ∧ default_intact Examples.resolved
  ∧ ((∃ msg, validate_zenodo_config 2%positive true Examples.resolved
             = (Raise (ValueError msg), Examples.resolved))
     ↔ unusable (PyDict.get [("ZENODO_ACCESS_TOKEN", "abc123")] (selected_key true)))
  ∧ (validate_zenodo_config 2%positive false Examples.resolved
     = (Ok true, Examples.resolved)
     ↔ ¬ unusable (PyDict.get [("ZENODO_ACCESS_TOKEN", "abc123")] (selected_key false))).
Proof.
  split; [reflexivity|]. split; [reflexivity|]. split.
  - apply (validation_rejects_exactly_unusable_tokens
             Examples.resolved 2%positive _ true); reflexivity.
  - apply (validation_rejects_exactly_unusable_tokens
             Examples.resolved 2%positive _ false); reflexivity.
Defined.

(** C7.  Two sections of one store that hold the same thing under the
    selected key (the same token, or none) get the same outcome from
    validation, whatever else they hold: the same returned value or an
    exception of the same class, and the same store afterwards. *)
Theorem validation_reads_only_the_selected_key
    (st : pystate) (c1 c2 : loc) (items1 items2 : PyDict.dict)
    (use_sandbox : bool) :
  heap st !! c1 = Some items1 →
  heap st !! c2 = Some items2 →
  PyDict.get items1 (selected_key use_sandbox)
  = PyDict.get items2 (selected_key use_sandbox) →
  outcome (validate_zenodo_config c1 use_sandbox st)
  = outcome (validate_zenodo_config c2 use_sandbox st)
  ∧ snd (validate_zenodo_config c1 use_sandbox st)
    = snd (validate_zenodo_config c2 use_sandbox st).
Proof.
  intros H1 H2 Heq. split.
  - unfold validate_zenodo_config.
    rewrite (bind_ok _ _ _ _ _ (deref_run _ _ _ H1)).
    rewrite (bind_ok _ _ _ _ _ (deref_run _ _ _ H2)).
    destruct use_sandbox; simpl in Heq; rewrite Heq; unfold bind;
      match goal with
      | |- context [token_rejected ?t ?k st] =>
          destruct (token_rejected t k st) as [[[]|e] st0]; reflexivity
      end.
  - destruct (validate_zenodo_config c1 use_sandbox st) as [r1 s1] eqn:E1.
    destruct (validate_zenodo_config c2 use_sandbox st) as [r2 s2] eqn:E2.
    apply validate_frame in E1, E2. simpl. congruence.
Qed.

Lemma validation_reads_only_the_selected_key_witness :
  outcome (validate_zenodo_config 2%positive false Examples.two_sections)
  = outcome (validate_zenodo_config 3%positive false Examples.two_sections)
  ∧ snd (validate_zenodo_config 2%positive false Examples.two_sections)
    = snd (validate_zenodo_config 3%positive false Examples.two_sections).
Proof.
  apply (validation_reads_only_the_selected_key Examples.two_sections
           2%positive 3%positive
           [("ZENODO_ACCESS_TOKEN", "abc123")]
           [("ZENODO_SANDBOX_ACCESS_TOKEN", "  "); ("ZENODO_ACCESS_TOKEN", "abc123")]
           false); reflexivity.
Defined.

(** C9.  When validation of a section passes, it returns [True] and the
    store is the one it started from: the section and every other object
    hold the items they held before the call. *)
Theorem validation_leaves_section_unchanged
    (st st' : pystate) (config : loc) (items : PyDict.dict)
    (use_sandbox b : bool) :
  heap st !! config = Some items →
  validate_zenodo_config config use_sandbox st = (Ok b, st') →
  b = true ∧ st' = st ∧ heap st' !! config = Some items.
Proof.
  intros Hc Hv. pose proof (validate_frame _ _ _ _ _ Hv) as ->.
  apply validate_returns_true in Hv. done.
Qed.

Lemma validation_leaves_section_unchanged_witness :
  validate_zenodo_config 2%positive false Examples.resolved
  = (Ok true, Examples.resolved)
  ∧ true = true ∧ Examples.resolved = Examples.resolved
  ∧ heap Examples.resolved !! 2%positive = Some [("ZENODO_ACCESS_TOKEN", "abc123")].
Proof.
  split; [reflexivity|].
  apply (validation_leaves_section_unchanged
           Examples.resolved Examples.resolved 2%positive
           [("ZENODO_ACCESS_TOKEN", "abc123")] false true); reflexivity.
Defined.

End validation.

(** ** Section extraction and environment overlay *)

Section extraction.
Import Config Spec.

(** C5.  When the document read holds the requested section with at least
    one key, the resolution returns a new mapping with the keys of the
    section, in the same order; under each key it holds the environment
    variable of that name when there is one and the value of the section
    otherwise; a name that is no key of the section is no key of the
    result.  A call of [config_section] that misses the memo table returns
    that mapping. *)
Theorem overlay_overrides_existing_keys_only
    (w : world) (file : option string) (section : string)
    (st st1 : pystate) (config : list (string * loc)) (found : loc)
    (items : PyDict.dict) :
  read_config_file w file st = (Ok config, st1) →
  PyDict.get config section = Some found →
  heap st1 !! found = Some items →
  items ≠ [] →
  ∃ (l : loc) (st2 : pystate) (result : PyDict.dict),
    config_section_body w (file, section) st = (Ok l, st2)
    ∧ heap st1 !! l = None
    ∧ heap st2 !! l = Some result
    ∧ PyDict.keys result = PyDict.keys items
    ∧ (∀ k v, PyDict.get items k = Some v →
              PyDict.get result k = Some (default v (environ w !! k)))
    ∧ (∀ k, k ∉ PyDict.keys items → PyDict.get result k = None)
    ∧ (cache_get (cache st) (file, section) = None →
       ∃ st3, config_section w file section st = (Ok l, st3)
              ∧ heap st3 = heap st2).
Proof.
  intros Hread Hget Hfound Hne.
  eexists _, _, _. split; [by apply (body_found _ _ _ _ _ _ _ _ Hread Hget Hfound)|].
  split; [apply fresh_unused|].
  split; [simpl; apply lookup_insert_eq|].
  split; [by apply keys_overlay_items|].
  split; [|split].
  - intros k v Hk. by rewrite get_overlay_all, Hk.
  - intros k Hk. rewrite get_overlay_all.
    apply get_None_keys in Hk. by rewrite Hk.
  - intros Hmiss. unfold config_section. rewrite (lru_miss _ _ _ Hmiss).
    rewrite (body_found _ _ _ _ _ _ _ _ Hread Hget Hfound Hne). eauto.
Qed.

Lemma overlay_overrides_existing_keys_only_witness :
  ∃ (l : loc) (st2 : pystate) (result : PyDict.dict),
    config_section_body Examples.explicit_file (Some "conf.toml", "zenodo") initial
    = (Ok l, st2)
    ∧ heap (snd (read_config_file Examples.explicit_file (Some "conf.toml") initial))
        !! l = None
    ∧ heap st2 !! l = Some result
    ∧ PyDict.keys result
      = PyDict.keys [("ZENODO_ACCESS_TOKEN", "file-token");
                     ("ZENODO_SANDBOX_ACCESS_TOKEN", "sandbox-token")]
    ∧ (∀ k v, PyDict.get [("ZENODO_ACCESS_TOKEN", "file-token");
                          ("ZENODO_SANDBOX_ACCESS_TOKEN", "sandbox-token")] k = Some v →
              PyDict.get result k
              = Some (default v (environ Examples.explicit_file !! k)))
    ∧ (∀ k, k ∉ PyDict.keys [("ZENODO_ACCESS_TOKEN", "file-token");
                             ("ZENODO_SANDBOX_ACCESS_TOKEN", "sandbox-token")] →
            PyDict.get result k = None)
    ∧ (cache_get (cache initial) (Some "conf.toml", "zenodo") = None →
       ∃ st3, config_section Examples.explicit_file (Some "conf.toml") "zenodo" initial
              = (Ok l, st3)
              ∧ heap st3 = heap st2).
Proof.
  apply (overlay_overrides_existing_keys_only
           Examples.explicit_file (Some "conf.toml") "zenodo" initial
           (snd (read_config_file Examples.explicit_file (Some "conf.toml") initial))
           [("zenodo", 2%positive); ("extra", 3%positive)] 2%positive
           [("ZENODO_ACCESS_TOKEN", "file-token");
            ("ZENODO_SANDBOX_ACCESS_TOKEN", "sandbox-token")]);
    [reflexivity | reflexivity | reflexivity | discriminate].
Defined.

(** C8.  When the document read has no section of the requested name, the
    resolution raises a [ValueError] whose message is
    [Section <name> not found in the configuration file], which contains
    the name; a call of [config_section] that misses the memo table raises
    it too. *)
Theorem missing_section_error_names_section
    (w : world) (file : option string) (section : string)
    (st st1 : pystate) (config : list (string * loc)) :
  read_config_file w file st = (Ok config, st1) →
  PyDict.get config section = None →
  ∃ msg : string,
    config_section_body w (file, section) st = (Raise (ValueError msg), st1)
    ∧ msg = "Section " +:+ section +:+ " not found in the configuration file"
    ∧ PyStr.contains section msg = true
    ∧ (cache_get (cache st) (file, section) = None →
       config_section w file section st = (Raise (ValueError msg), st1)).
Proof.
  intros Hread Hget. exists (section_not_found section).
  split; [by apply (body_missing _ _ _ _ _ _ Hread Hget)|].
  split; [done|]. split; [apply contains_app|].
  intros Hmiss. unfold config_section. rewrite (lru_miss _ _ _ Hmiss).
  by rewrite (body_missing _ _ _ _ _ _ Hread Hget).
Qed.

Lemma missing_section_error_names_section_witness :
  ∃ msg : string,
    config_section_body Examples.explicit_file (Some "conf.toml", "nonexistent") initial
    = (Raise (ValueError msg),
       snd (read_config_file Examples.explicit_file (Some "conf.toml") initial))
    ∧ msg = "Section nonexistent not found in the configuration file"
    ∧ PyStr.contains "nonexistent" msg = true
    ∧ (cache_get (cache initial) (Some "conf.toml", "nonexistent") = None →
       config_section Examples.explicit_file (Some "conf.toml") "nonexistent" initial
       = (Raise (ValueError msg),
          snd (read_config_file Examples.explicit_file (Some "conf.toml") initial))).
Proof.
  apply (missing_section_error_names_section
           Examples.explicit_file (Some "conf.toml") "nonexistent" initial
           (snd (read_config_file Examples.explicit_file (Some "conf.toml") initial))
           [("zenodo", 2%positive); ("extra", 3%positive)]);
    reflexivity.
Defined.

(** C10.  When the document read holds the requested section and the
    section is empty, the resolution raises the [ValueError] it raises for
    a document without the section: the same class and the same message
    [Section <name> not found in the configuration file]. *)
Theorem empty_section_reported_as_missing
    (w : world) (file : option string) (section : string)
    (st st1 : pystate) (config : list (string * loc)) (found : loc) :
  read_config_file w file st = (Ok config, st1) →
  PyDict.get config section = Some found →
  heap st1 !! found = Some [] →
  config_section_body w (file, section) st
  = (Raise (ValueError (section_not_found section)), st1)
  ∧ (cache_get (cache st) (file, section) = None →
     config_section w file section st
     = (Raise (ValueError (section_not_found section)), st1))
  ∧ ∀ (w' : world) (file' : option string) (s s1 : pystate)
      (config' : list (string * loc)),
      read_config_file w' file' s = (Ok config', s1) →
      PyDict.get config' section = None →
      fst (config_section_body w' (file', section) s)
      = fst (config_section_body w (file, section) st).
Proof.
  intros Hread Hget Hfound.
  pose proof (body_empty _ _ _ _ _ _ _ Hread Hget Hfound) as Hbody.
  split; [done|]. split.
  - intros Hmiss. unfold config_section. rewrite (lru_miss _ _ _ Hmiss).
    by rewrite Hbody.
  - intros w' file' s s1 config' Hread' Hget'.
    by rewrite Hbody, (body_missing _ _ _ _ _ _ Hread' Hget').
Qed.

Lemma empty_section_reported_as_missing_witness :
  config_section_body Examples.explicit_file (Some "conf.toml", "extra") initial
  = (Raise (ValueError "Section extra not found in the configuration file"),
     snd (read_config_file Examples.explicit_file (Some "conf.toml") initial))
  ∧ fst (config_section_body Examples.explicit_file (Some "conf.toml", "absent") initial)
    = Raise (ValueError "Section absent not found in the configuration file").
Proof.
  split; [|reflexivity].
  apply (empty_section_reported_as_missing
           Examples.explicit_file (Some "conf.toml") "extra" initial
           (snd (read_config_file Examples.explicit_file (Some "conf.toml") initial))
           [("zenodo", 2%positive); ("extra", 3%positive)] 3%positive);
    reflexivity.
Defined.

End extraction.

(** ** References stay inside the store *)

Section allocation.
Import Config Spec.

Lemma open_and_load_allocated w file st r st1 :
  open_and_load w file st = (r, st1) →
  match r with
  | Ok config => ∀ name l, PyDict.get config name = Some l → is_Some (heap st1 !! l)
  | Raise e => ∀ l, e ≠ DanglingReference l
  end.
Proof.
  unfold open_and_load. destruct (fs w !! file) as [[doc|]|].
  - destruct (load_tables_run doc st) as (c & s & -> & _ & _ & Hget).
    intros [= <- <-] name l Hl. specialize (Hget name).
    destruct (PyDict.get doc name) as [items|]; [|congruence].
    destruct Hget as (l' & H1 & H2 & _). rewrite Hl in H1.
    injection H1 as <-. eauto.
  - by intros [= <- <-].
  - by intros [= <- <-].
Qed.

Lemma read_config_file_allocated w file st r st1 :
  is_Some (heap st !! default_zenodo) →
  read_config_file w file st = (r, st1) →
  match r with
  | Ok config => ∀ name l, PyDict.get config name = Some l → is_Some (heap st1 !! l)
  | Raise e => ∀ l, e ≠ DanglingReference l
  end.
Proof.
  intros [d Hd]. unfold read_config_file.
  destruct (provided file); [apply open_and_load_allocated|].
  destruct (provided _); [apply open_and_load_allocated|].
  rewrite (use_default_run _ _ Hd). intros [= <- <-] name l. simpl.
  case_bool_decide; [|done]. intros [= <-]. rewrite lookup_insert_eq. eauto.
Qed.

(** On a store that holds the default, a resolution never reads a
    reference outside the store. *)
Lemma config_section_allocated w args st r st' :
  is_Some (heap st !! default_zenodo) →
  config_section_body w args st = (r, st') →
  ∀ l, r ≠ Raise (DanglingReference l).
Proof.
  intros Hd. destruct args as [file section].
  destruct (read_config_file w file st) as [[config|e] st1] eqn:Hread;
    pose proof (read_config_file_allocated _ _ _ _ _ Hd Hread) as Hall.
  - destruct (PyDict.get config section) as [found|] eqn:Hget.
    + destruct (Hall _ _ Hget) as [items Hfound].
      destruct (decide (items = [])) as [->|Hne].
      * rewrite (body_empty _ _ _ _ _ _ _ Hread Hget Hfound).
        by intros [= <- <-].
      * rewrite (body_found _ _ _ _ _ _ _ _ Hread Hget Hfound Hne).
        by intros [= <- <-].
    + rewrite (body_missing _ _ _ _ _ _ Hread Hget). by intros [= <- <-].
  - unfold config_section_body. rewrite (bind_raise _ _ _ _ _ Hread).
    intros [= <- <-] l [= ->]. by apply (Hall l).
Qed.

(** The object a resolution returns did not exist before. *)
Lemma body_returns_new_object w args st l st' :
  config_section_body w args st = (Ok l, st') →
  heap st !! l = None ∧ is_Some (heap st' !! l).
Proof.
  destruct args as [file section].
  destruct (read_config_file w file st) as [[config|e] st1] eqn:Hread.
  - destruct (read_config_file_extends _ _ _ _ _ Hread) as [Hext _].
    destruct (PyDict.get config section) as [found|] eqn:Hget.
    + destruct (heap st1 !! found) as [items|] eqn:Hfound.
      * destruct (decide (items = [])) as [->|Hne].
        -- by rewrite (body_empty _ _ _ _ _ _ _ Hread Hget Hfound).
        -- rewrite (body_found _ _ _ _ _ _ _ _ Hread Hget Hfound Hne).
           intros [= <- <-]. split.
           ++ eapply extends_fresh; [exact Hext | apply fresh_unused].
           ++ simpl. rewrite lookup_insert_eq. eauto.
      * unfold config_section_body.
        rewrite (bind_ok _ _ _ _ _ Hread). rewrite Hget.
        by rewrite (bind_raise _ _ _ _ _ (deref_dangling _ _ Hfound)).
    + by rewrite (body_missing _ _ _ _ _ _ Hread Hget).
  - unfold config_section_body. by rewrite (bind_raise _ _ _ _ _ Hread).
Qed.

Lemma cache_get_elem (c : list (cache_key * loc)) key l :
  cache_get c key = Some l → ∃ e, e ∈ c ∧ snd e = l.
Proof.
  unfold cache_get. destruct (find _ c) as [e|] eqn:Hf; [|done].
  intros [= <-]. apply find_some in Hf as [Hin _].
  exists e. split; [by apply list_elem_of_In | done].
Qed.

Lemma well_formed_initial : well_formed initial.
Proof. split; [reflexivity | constructor]. Qed.

(** A caller that writes into a mapping other than the default leaves the
    state well formed. *)
Lemma well_formed_setitem_at l k v st st' :
  well_formed st → l ≠ default_zenodo →
  setitem_at l k v st = (Ok tt, st') → well_formed st'.
Proof.
  intros [Hd Hc] Hl. unfold setitem_at.
  destruct (heap st !! l) as [d|]; [|done]. intros [= <-].
  split; [|done]. unfold default_intact. simpl. by rewrite lookup_insert_ne.
Qed.

Lemma well_formed_config_section w file section st r st' :
  well_formed st →
  config_section w file section st = (r, st') →
  well_formed st' ∧ ∀ l, r = Ok l → l ≠ default_zenodo.
Proof.
  intros [Hd Hc] Hrun.
  assert (default_intact st') as Hd'.
  { eapply extends_lookup; [by eapply config_section_extends | exact Hd]. }
  revert Hrun. unfold config_section.
  destruct (cache_get (cache st) (file, section)) as [l0|] eqn:Hget.
  - rewrite (lru_hit _ _ _ _ Hget). intros [= <- <-].
    destruct (cache_get_elem _ _ _ Hget) as (e & He & <-).
    pose proof (proj1 (Forall_forall _ _) Hc) as Hall.
    split; [|intros l [= <-]; exact (Hall e He)].
    split; [done|]. simpl. constructor; [exact (Hall e He)|].
    unfold cache_drop. apply Forall_forall. intros x Hx.
    apply list_elem_of_filter in Hx as [_ Hx]. exact (Hall x Hx).
  - rewrite (lru_miss _ _ _ Hget).
    destruct (config_section_body w (file, section) st) as [[l1|e] st1] eqn:Hb.
    + intros [= <- <-].
      destruct (body_returns_new_object _ _ _ _ _ Hb) as [Hnew _].
      assert (l1 ≠ default_zenodo) as Hl1.
      { intros ->. unfold default_intact in Hd. congruence. }
      split; [|by intros l [= <-]].
      split; [done|]. simpl.
      apply body_extends in Hb as [_ Hcache]. rewrite Hcache.
      constructor; [done | by apply Forall_take].
    + intros [= <- <-]. split; [|done]. split; [done|].
      apply body_extends in Hb as [_ Hcache]. by rewrite Hcache.
Qed.

End allocation.

(** ** Source discovery *)

Section discovery.
Import Config Spec.

Lemma first_file_that_exists_find w files :
  first_file_that_exists w files = find (os_path_exists w) files.
Proof. induction files as [|f files IH]; simpl; [done|]. by rewrite IH. Qed.

Lemma exists_provided w file :
  os_path_exists w file = true → provided (Some file) = true.
Proof. unfold os_path_exists. simpl. by intros [? _]%andb_true_iff. Qed.

(** C6.  [read_config_file] reads the source that discovery selects: the
    explicit path when one is given (a non-empty string; whether it
    exists is learnt only when it is opened), else the settings file of
    the working directory if it exists, else the one of the home
    directory if it exists, else the built-in default.  In particular,
    when the settings file of the working directory exists it is the one
    read, whether or not the home directory has one. *)
Theorem discovery_order_followed (w : world) (file : option string) :
  read_config_file w file = read w (discover w file)
  ∧ (∀ c p, read_config_file w (Some (String c p)) = open_and_load w (String c p))
  ∧ (os_path_exists w settings_name = true →
     read_config_file w None = open_and_load w settings_name).
Proof.
  assert (read_config_file w None = read w (discover w None)) as Hnone.
  { unfold read_config_file, discover.
    cbn [provided first_file_that_exists].
    destruct (os_path_exists w settings_name) eqn:Ehere.
    - by rewrite (exists_provided _ _ Ehere).
    - destruct (os_path_exists w (expanduser w _)) eqn:Ehome; [|done].
      by rewrite (exists_provided _ _ Ehome). }
  split; [|split].
  - destruct file as [[|c p]|]; [exact Hnone | done | exact Hnone].
  - done.
  - intros Hhere. rewrite Hnone. unfold discover. by rewrite Hhere.
Qed.

Lemma discovery_order_followed_witness :
  os_path_exists Examples.two_files settings_name = true
  ∧ os_path_exists Examples.two_files
      (expanduser Examples.two_files ("~/" +:+ settings_name)) = true
  ∧ read_config_file Examples.two_files None
    = open_and_load Examples.two_files settings_name
  ∧ ∃ st, read_config_file Examples.two_files None initial
          = (Ok [("zenodo", 2%positive)], st)
          ∧ heap st !! 2%positive = Some [("ZENODO_ACCESS_TOKEN", "here-token")].
Proof.
  split; [reflexivity|]. split; [reflexivity|]. split.
  - destruct (discovery_order_followed Examples.two_files None) as (_ & _ & Hhere).
    apply Hhere. reflexivity.
  - exists (snd (read_config_file Examples.two_files None initial)).
    split; reflexivity.
Defined.

End discovery.

(** ** The memo table *)

Section memo.
Import Config Spec.

(** C2, as the specification has it, fails: with no settings file, a
    first resolution in an empty environment and a second one with the
    same arguments after [ZENODO_ACCESS_TOKEN] was set return the same
    mapping, and it still holds the placeholder where a resolution on a
    new process reads the variable. *)
Lemma second_call_keeps_first_overlay :
  ∃ (l : loc) (st1 st2 : pystate) (items : PyDict.dict),
    config_section Examples.quiet None "zenodo" initial = (Ok l, st1)
    ∧ config_section Examples.token_set None "zenodo" st1 = (Ok l, st2)
    ∧ heap st2 !! l = Some items
    ∧ environ Examples.token_set !! "ZENODO_ACCESS_TOKEN" = Some "prod-secret-token"
    ∧ PyDict.get items "ZENODO_ACCESS_TOKEN" = Some "Change me"
    ∧ PyDict.get items "ZENODO_ACCESS_TOKEN" ≠ Some "prod-secret-token".
Proof.
  eexists _, _, _, _.
  split; [vm_compute; reflexivity|].
  split; [vm_compute; reflexivity|].
  split; [vm_compute; reflexivity|].
  split; [reflexivity|]. split; [reflexivity | discriminate].
Qed.

(** C2, amended.  The memo table stores the mapping with its overlay.  A
    call whose arguments are not in the table (a miss) runs the body of
    [config_section], overlay included, in the environment of that call.
    A call whose arguments are in the table (a hit) returns the stored
    mapping and changes no object, whatever the environment and the files
    then are.  The call that comes right after a call that returned a
    mapping, with the same arguments, is such a hit: it returns the same
    mapping, and a change of the environment between the two is not seen.
    Nothing is said of a later call whose entry has left the table in
    between: it is a miss. *)
Theorem overlay_computed_on_miss_only
    (w w' : world) (file : option string) (section : string) (st : pystate) :
  (cache_get (cache st) (file, section) = None →
   fst (config_section w file section st)
   = fst (config_section_body w (file, section) st)
   ∧ heap (snd (config_section w file section st))
     = heap (snd (config_section_body w (file, section) st)))
  ∧ (∀ (l : loc) (st1 : pystate),
       config_section w file section st = (Ok l, st1) →
       ∃ st2, config_section w' file section st1 = (Ok l, st2)
              ∧ heap st2 = heap st1)
  ∧ (∀ l : loc,
       cache_get (cache st) (file, section) = Some l →
       ∃ st2, config_section w' file section st = (Ok l, st2)
              ∧ heap st2 = heap st).
Proof.
  split; [|split].
  - intros Hmiss. unfold config_section. rewrite (lru_miss _ _ _ Hmiss).
    by destruct (config_section_body w (file, section) st) as [[l|e] st1].
  - intros l st1 Hrun. unfold config_section in *.
    apply lru_cache_stores in Hrun.
    rewrite (lru_hit _ _ _ _ Hrun). eauto.
  - intros l Hhit. unfold config_section.
    rewrite (lru_hit _ _ _ _ Hhit). eauto.
Qed.

Lemma overlay_computed_on_miss_only_witness :
  (fst (config_section Examples.token_set None "zenodo" initial)
   = fst (config_section_body Examples.token_set (None, "zenodo") initial))
  ∧ ∃ st2, config_section Examples.token_set None "zenodo"
             (snd (config_section Examples.quiet None "zenodo" initial))
           = (Ok 3%positive, st2)
           ∧ heap st2 = heap (snd (config_section Examples.quiet None "zenodo" initial)).
Proof.
  split.
  - apply (proj1 (overlay_computed_on_miss_only
                    Examples.token_set Examples.quiet None "zenodo" initial)).
    reflexivity.
  - apply (proj1 (proj2 (overlay_computed_on_miss_only
                           Examples.quiet Examples.token_set None "zenodo" initial))).
    reflexivity.
Defined.

(** C3, as the specification has it, fails: with no settings file, the
    first resolution falls through to the built-in default, the caller
    adds the key [X] to the mapping it got, and the second resolution
    with the same arguments returns that very mapping, [X] included. *)
Lemma second_call_sees_callers_mutation :
  ∃ (l : loc) (st1 st1' st2 : pystate) (items : PyDict.dict),
    provided None = false
    ∧ first_file_that_exists Examples.quiet
        [settings_name; expanduser Examples.quiet ("~/" +:+ settings_name)] = None
    ∧ config_section Examples.quiet None "zenodo" initial = (Ok l, st1)
    ∧ setitem_at l "X" "1" st1 = (Ok tt, st1')
    ∧ config_section Examples.quiet None "zenodo" st1' = (Ok l, st2)
    ∧ heap st2 !! l = Some items
    ∧ PyDict.get items "X" = Some "1".
Proof.
  eexists _, _, _, _, _.
  split; [reflexivity|]. split; [reflexivity|].
  split; [vm_compute; reflexivity|].
  split; [vm_compute; reflexivity|].
  split; [vm_compute; reflexivity|].
  split; [vm_compute; reflexivity|]. reflexivity.
Qed.

(** C3, amended.  From a well-formed state, no resolution mutates the
    built-in default, and the mapping a resolution returns is never the
    default itself, so a caller writing into it leaves the default alone.
    A resolution that misses the memo table and falls through to the
    built-in default returns a mapping that did not exist before and holds
    the keys of the default only, whatever callers did to mappings they
    got earlier.  A resolution that hits the memo table returns the stored
    mapping itself, with whatever its holders have written into it. *)
Theorem default_protected_fresh_on_miss
    (w : world) (file : option string) (section : string)
    (st st' : pystate) (r : result loc) :
  well_formed st →
  config_section w file section st = (r, st') →
  well_formed st'
  ∧ (∀ l, r = Ok l → l ≠ default_zenodo)
  ∧ (cache_get (cache st) (file, section) = None →
     provided file = false →
     first_file_that_exists w
       [settings_name; expanduser w ("~/" +:+ settings_name)] = None →
     section = "zenodo" →
     ∃ l, r = Ok l
          ∧ heap st !! l = None
          ∧ heap st' !! l
            = Some (overlay_items (environ w) default_zenodo_items
                      (PyDict.keys default_zenodo_items)))
  ∧ (∀ l, cache_get (cache st) (file, section) = Some l →
          r = Ok l ∧ heap st' = heap st).
Proof.
  intros Hwf Hrun.
  destruct (well_formed_config_section _ _ _ _ _ _ Hwf Hrun) as [Hwf' Hne].
  split; [done|]. split; [done|]. split.
  - intros Hmiss Hfile Hnone ->. destruct Hwf as [Hd _].
    assert (read_config_file w file st
            = (Ok [("zenodo", fresh (dom (heap st)))],
               PyState (<[fresh (dom (heap st)) := default_zenodo_items]> (heap st))
                       (cache st))) as Hread.
    { unfold read_config_file. rewrite Hfile, Hnone. simpl.
      by apply use_default_run. }
    revert Hrun. unfold config_section. rewrite (lru_miss _ _ _ Hmiss).
    erewrite body_found;
      [ | exact Hread | simpl; reflexivity
        | simpl; apply lookup_insert_eq | discriminate ].
    intros [= <- <-]. eexists. split; [reflexivity|]. split.
    + eapply extends_fresh; [apply (alloc_extends default_zenodo_items st)|].
      apply fresh_unused.
    + simpl. apply lookup_insert_eq.
  - intros l Hhit. revert Hrun. unfold config_section.
    rewrite (lru_hit _ _ _ _ Hhit). by intros [= <- <-].
Qed.

Lemma default_protected_fresh_on_miss_witness :
  well_formed initial
  ∧ well_formed (snd (config_section Examples.quiet None "zenodo" initial))
  ∧ ∃ l, fst (config_section Examples.quiet None "zenodo" initial) = Ok l
         ∧ heap initial !! l = None
         ∧ heap (snd (config_section Examples.quiet None "zenodo" initial)) !! l
           = Some default_zenodo_items.
Proof.
  split; [apply well_formed_initial|].
  destruct (default_protected_fresh_on_miss
              Examples.quiet None "zenodo" initial
              (snd (config_section Examples.quiet None "zenodo" initial))
              (fst (config_section Examples.quiet None "zenodo" initial))
              well_formed_initial)
    as (Hwf & _ & Hmiss & _); [reflexivity|].
  split; [exact Hwf|].
  apply Hmiss; reflexivity.
Defined.

End memo.

(** ** What the error message shows *)

Section messages.
Import Config Spec.

(** The message of a failed validation ends with the whole section as
    [repr] prints it. *)
Lemma validation_error_message st config items use_sandbox msg st' :
  heap st !! config = Some items →
  validate_zenodo_config config use_sandbox st = (Raise (ValueError msg), st') →
  msg = (if use_sandbox then sandbox_message else production_message) items.
Proof.
  intros Hc. unfold validate_zenodo_config.
  rewrite (bind_ok _ _ _ _ _ (deref_run _ _ _ Hc)).
  destruct use_sandbox; unfold bind;
    match goal with
    | |- context [token_rejected ?t ?k st] =>
        destruct (token_rejected t k st) as [[[]|e] st0] eqn:E
    end; unfold raise, ret; try congruence.
  all: intros [= -> _]; revert E; unfold token_rejected;
    repeat (first [ case_match | case_bool_decide ]);
    unfold ret, raise, bind, deref; repeat case_match; congruence.
Qed.

(** C4.  With the production token in the environment, no sandbox token
    configured and the sandbox selected, validation fails and the message
    handed to the user shows the production token in full; the masked
    form [hide_access_token] makes of it is not what the message holds. *)
Theorem validation_error_shows_token :
  ∃ (st : pystate) (message : string),
    Cli.cli Examples.token_set true None initial
    = (Raise (ClickException message), st)
    ∧ message =
        "Invalid configuration: ZENODO_SANDBOX_ACCESS_TOKEN is not set or invalid, sandbox being used. Config: {'ZENODO_ACCESS_TOKEN': 'prod-secret-token', 'ZENODO_SANDBOX_ACCESS_TOKEN': 'Change me'}"
    ∧ PyStr.contains "prod-secret-token" message = true
    ∧ Cli.hide_access_token "prod-secret-token" = "prod*************"
    ∧ PyStr.contains (Cli.hide_access_token "prod-secret-token") message = false.
Proof.
  eexists _, _. split; [vm_compute; reflexivity|].
  split; [reflexivity|]. split; [vm_compute; reflexivity|].
  split; vm_compute; reflexivity.
Qed.

End messages.

(** * Further properties of config.py *)

Section discovery_more.
Import Config Spec.

(** X1.  [first_file_that_exists] returns a file of the list that exists
    and before which no file of the list exists; it returns [None] only
    when no file of the list exists. *)
Theorem first_file_that_exists_is_first (w : world) (files : list string) :
  match first_file_that_exists w files with
  | Some file =>
      ∃ before after,
        files = before ++ file :: after
        ∧ os_path_exists w file = true
        ∧ Forall (fun f => os_path_exists w f = false) before
  | None => Forall (fun f => os_path_exists w f = false) files
  end.
Proof.
  induction files as [|f files IH]; simpl; [constructor|].
  destruct (os_path_exists w f) eqn:Ef.
  - exists [], files. by repeat split.
  - destruct (first_file_that_exists w files) as [file|].
    + destruct IH as (before & after & -> & Hex & Hno).
      exists (f :: before), after. repeat split; [done|]. by constructor.
    + by constructor.
Qed.

(** X2.  An explicit path that names no file, or a file that is not TOML,
    makes a resolution that misses the memo table raise
    [FileNotFoundError], respectively [TOMLDecodeError]: neither the
    settings files nor the built-in default stand in for it, and the state
    is left as it was. *)
Theorem explicit_file_failure_is_raised
    (w : world) (c : ascii) (p section : string) (st : pystate) :
  cache_get (cache st) (Some (String c p), section) = None →
  (fs w !! String c p = None →
   config_section w (Some (String c p)) section st
   = (Raise (FileNotFoundError (String c p)), st))
  ∧ (fs w !! String c p = Some NotToml →
     config_section w (Some (String c p)) section st
     = (Raise (TOMLDecodeError (String c p)), st)).
Proof.
  intros Hmiss. unfold config_section. rewrite (lru_miss _ _ _ Hmiss).
  split; intros Hfs.
  - assert (read_config_file w (Some (String c p)) st
            = (Raise (FileNotFoundError (String c p)), st)) as Hread.
    { change (read_config_file w (Some (String c p)) st)
        with (open_and_load w (String c p) st).
      unfold open_and_load. by rewrite Hfs. }
    unfold config_section_body. by rewrite (bind_raise _ _ _ _ _ Hread).
  - assert (read_config_file w (Some (String c p)) st
            = (Raise (TOMLDecodeError (String c p)), st)) as Hread.
    { change (read_config_file w (Some (String c p)) st)
        with (open_and_load w (String c p) st).
      unfold open_and_load. by rewrite Hfs. }
    unfold config_section_body. by rewrite (bind_raise _ _ _ _ _ Hread).
Qed.

Lemma explicit_file_failure_is_raised_witness :
  config_section Examples.quiet (Some "missing.toml") "zenodo" initial
  = (Raise (FileNotFoundError "missing.toml"), initial).
Proof.
  apply (explicit_file_failure_is_raised Examples.quiet "m" "issing.toml" "zenodo" initial);
    reflexivity.
Defined.

(** X3.  When the settings file of the working directory exists and is not
    TOML, reading the configuration without an explicit path raises
    [TOMLDecodeError] for it, whatever the home directory holds: the next
    candidate is not tried. *)
Theorem broken_settings_file_is_not_skipped (w : world) (st : pystate) :
  os_path_exists w settings_name = true →
  fs w !! settings_name = Some NotToml →
  read_config_file w None st = (Raise (TOMLDecodeError settings_name), st).
Proof.
  intros Hex Hfs. unfold read_config_file.
  cbn [provided first_file_that_exists]. rewrite Hex.
  change (open_and_load w settings_name st = (Raise (TOMLDecodeError settings_name), st)).
  unfold open_and_load. by rewrite Hfs.
Qed.

Lemma broken_settings_file_is_not_skipped_witness :
  read_config_file Examples.broken_here None initial
  = (Raise (TOMLDecodeError settings_name), initial).
Proof.
  apply (broken_settings_file_is_not_skipped Examples.broken_here initial);
    reflexivity.
Defined.

(** X4.  With no explicit path and no settings file, the document read has
    the section [zenodo] only: a resolution of any other section that
    misses the memo table raises the section-not-found [ValueError]. *)
Theorem default_has_zenodo_section_only
    (w : world) (file : option string) (section : string) (st : pystate) :
  default_intact st →
  provided file = false →
  first_file_that_exists w
    [settings_name; expanduser w ("~/" +:+ settings_name)] = None →
  section ≠ "zenodo" →
  cache_get (cache st) (file, section) = None →
  ∃ st', config_section w file section st
         = (Raise (ValueError (section_not_found section)), st')
         ∧ cache st' = cache st.
Proof.
  intros Hd Hfile Hnone Hsec Hmiss.
  assert (read_config_file w file st
          = (Ok [("zenodo", fresh (dom (heap st)))],
             PyState (<[fresh (dom (heap st)) := default_zenodo_items]> (heap st))
                     (cache st))) as Hread.
  { unfold read_config_file. rewrite Hfile, Hnone. simpl.
    by apply use_default_run. }
  assert (PyDict.get [("zenodo", fresh (dom (heap st)))] section = None) as Hget.
  { simpl. by rewrite bool_decide_eq_false_2. }
  unfold config_section. rewrite (lru_miss _ _ _ Hmiss).
  rewrite (body_missing _ _ _ _ _ _ Hread Hget). eexists. split; reflexivity.
Qed.

Lemma default_has_zenodo_section_only_witness :
  ∃ st', config_section Examples.quiet None "other" initial
         = (Raise (ValueError (section_not_found "other")), st')
         ∧ cache st' = cache initial.
Proof.
  apply (default_has_zenodo_section_only Examples.quiet None "other" initial);
    [reflexivity | reflexivity | reflexivity | discriminate | reflexivity].
Defined.

End discovery_more.

(** * Further properties of the memo table *)

Section memo_more.
Import Config Spec.

Lemma cache_get_cons c k k' l :
  cache_get ((k', l) :: c) k = if bool_decide (k' = k) then Some l else cache_get c k.
Proof. unfold cache_get. simpl. by case_bool_decide. Qed.

Lemma cache_get_None c k : cache_get c k = None ↔ k ∉ c.*1.
Proof.
  induction c as [|[k' l] c IH]; simpl.
  - split; [intros _; apply not_elem_of_nil | done].
  - rewrite cache_get_cons, not_elem_of_cons. case_bool_decide as Hk.
    + split; [done | intros [Hne _]; congruence].
    + rewrite IH. split; [intros ?; split; [congruence | done] | by intros [_ ?]].
Qed.

Lemma cache_get_Some_elem c k l : cache_get c k = Some l → (k, l) ∈ c.
Proof.
  induction c as [|[k' l'] c IH]; [done|].
  rewrite cache_get_cons. case_bool_decide as Hk.
  - intros [= <-]. subst. left.
  - intros H. right. by apply IH.
Qed.

Lemma cache_get_drop_ne c k k' :
  k ≠ k' → cache_get (cache_drop c k') k = cache_get c k.
Proof.
  intros Hne. unfold cache_drop.
  induction c as [|[k0 l0] c IH]; [done|].
  rewrite filter_cons. simpl. case_decide as Hk0.
  - rewrite !cache_get_cons. by rewrite IH.
  - rewrite cache_get_cons, IH. assert (k0 = k') as -> by (by destruct (decide (k0 = k'))).
    by rewrite bool_decide_eq_false_2.
Qed.

Lemma cache_get_take_second c k l n k0 l0 :
  k0 ≠ k →
  cache_get (take (S (S n)) ((k0, l0) :: (k, l) :: c)) k = Some l.
Proof.
  intros Hne. simpl. rewrite !cache_get_cons.
  by rewrite bool_decide_eq_false_2, bool_decide_eq_true_2.
Qed.

Lemma lru_cache_head f key st l st' :
  lru_cache f key st = (Ok l, st') → ∃ rest, cache st' = (key, l) :: rest.
Proof.
  destruct (cache_get (cache st) key) as [l0|] eqn:Hc.
  - rewrite (lru_hit _ _ _ _ Hc). intros [= <- <-]. eauto.
  - rewrite (lru_miss _ _ _ Hc).
    destruct (f key st) as [[l1|e] st1]; [|done].
    intros [= <- <-]. simpl. eauto.
Qed.

(** X5.  A resolution that raises leaves the memo table as it was, without
    an entry for its arguments: the next call with the same arguments runs
    the resolution again, in the world of that call. *)
Theorem failed_resolution_is_not_cached
    (w w' : world) (file : option string) (section : string)
    (st st' : pystate) (e : exn) :
  config_section w file section st = (Raise e, st') →
  cache st' = cache st
  ∧ cache_get (cache st') (file, section) = None
  ∧ fst (config_section w' file section st')
    = fst (config_section_body w' (file, section) st').
Proof.
  unfold config_section.
  destruct (cache_get (cache st) (file, section)) as [l0|] eqn:Hc.
  { by rewrite (lru_hit _ _ _ _ Hc). }
  rewrite (lru_miss _ _ _ Hc).
  destruct (config_section_body w (file, section) st) as [[l1|e1] st1] eqn:Hb; [done|].
  intros [= <- <-]. apply body_extends in Hb as [_ Hcache].
  split; [done|]. rewrite Hcache. split; [done|].
  rewrite lru_miss by (by rewrite Hcache).
  by destruct (config_section_body w' (file, section) st1) as [[l|e'] s].
Qed.

Lemma failed_resolution_is_not_cached_witness :
  cache (snd (config_section Examples.quiet (Some "conf.toml") "zenodo" initial))
  = cache initial
  ∧ cache_get
      (cache (snd (config_section Examples.quiet (Some "conf.toml") "zenodo" initial)))
      (Some "conf.toml", "zenodo") = None
  ∧ fst (config_section Examples.explicit_file (Some "conf.toml") "zenodo"
           (snd (config_section Examples.quiet (Some "conf.toml") "zenodo" initial)))
    = fst (config_section_body Examples.explicit_file (Some "conf.toml", "zenodo")
             (snd (config_section Examples.quiet (Some "conf.toml") "zenodo" initial))).
Proof.
  apply (failed_resolution_is_not_cached
           Examples.quiet Examples.explicit_file (Some "conf.toml") "zenodo" initial
           (snd (config_section Examples.quiet (Some "conf.toml") "zenodo" initial))
           (FileNotFoundError "conf.toml")).
  reflexivity.
Defined.

Lemma cache_insert_ok (c : list (cache_key * loc)) key l :
  NoDup c.*1 → key ∉ c.*1 →
  NoDup (take maxsize ((key, l) :: c)).*1
  ∧ (List.length (take maxsize ((key, l) :: c)) ≤ maxsize)%nat.
Proof.
  intros Hnd Hnew. split.
  - rewrite fmap_take. eapply sublist_NoDup; [|apply sublist_take].
    rewrite fmap_cons. by constructor.
  - rewrite length_take. lia.
Qed.

(** X6.  [config_section] keeps the memo table within its bounds: when the
    table has no two entries for the same arguments and at most 32 entries,
    it is so again after the call, whatever the call returns or raises. *)
Theorem memo_table_stays_bounded
    (w : world) (file : option string) (section : string)
    (st st' : pystate) (r : result loc) :
  cache_ok st →
  config_section w file section st = (r, st') →
  cache_ok st'.
Proof.
  intros [Hnd Hlen]. unfold config_section.
  destruct (cache_get (cache st) (file, section)) as [l0|] eqn:Hc.
  - rewrite (lru_hit _ _ _ _ Hc). intros [= <- <-]. split; simpl.
    + constructor.
      * intros Hin. apply list_elem_of_fmap in Hin as ([k l] & Hk & Hin).
        apply list_elem_of_filter in Hin as [Hne _]. simpl in *. congruence.
      * eapply sublist_NoDup; [exact Hnd|].
        apply fmap_sublist, sublist_filter.
    + apply cache_get_Some_elem in Hc.
      assert (List.length (cache_drop (cache st) (file, section)) < List.length (cache st))%nat
        as Hlt.
      { unfold cache_drop.
        apply (length_filter_lt _ _ ((file, section), l0)); [done|].
        simpl. intros Hne. by apply Hne. }
      lia.
  - rewrite (lru_miss _ _ _ Hc).
    destruct (config_section_body w (file, section) st) as [[l1|e1] st1] eqn:Hb;
      apply body_extends in Hb as [_ Hcache]; intros [= <- <-].
    + unfold cache_ok. cbn [cache]. rewrite Hcache.
      apply cache_insert_ok; [done | by apply cache_get_None].
    + split; by rewrite Hcache.
Qed.

Lemma memo_table_stays_bounded_witness :
  cache_ok initial
  ∧ cache_ok (snd (config_section Examples.quiet None "zenodo" initial)).
Proof.
  assert (cache_ok initial) as Hok.
  { split; [constructor | simpl; unfold maxsize; lia]. }
  split; [exact Hok|].
  apply (memo_table_stays_bounded Examples.quiet None "zenodo" initial _
           (fst (config_section Examples.quiet None "zenodo" initial)) Hok).
  reflexivity.
Defined.

(** X7.  When the memo table is full, a resolution with new arguments that
    returns a mapping drops the least recently used entry, the last one,
    and keeps every other entry behind the new one. *)
Theorem full_memo_table_evicts_oldest
    (w : world) (file : option string) (section : string)
    (st st' : pystate) (l : loc)
    (front : list (cache_key * loc)) (oldest : cache_key) (l_old : loc) :
  cache_ok st →
  cache st = front ++ [(oldest, l_old)] →
  List.length (cache st) = maxsize →
  cache_get (cache st) (file, section) = None →
  config_section w file section st = (Ok l, st') →
  cache st' = ((file, section), l) :: front
  ∧ cache_get (cache st') oldest = None.
Proof.
  intros [Hnd _] Hcache Hlen Hmiss. unfold config_section.
  rewrite (lru_miss _ _ _ Hmiss).
  destruct (config_section_body w (file, section) st) as [[l1|e1] st1] eqn:Hb; [|done].
  apply body_extends in Hb as [_ Hsame]. intros [= <- <-]. cbn [cache].
  rewrite Hsame, Hcache.
  rewrite Hcache, length_app in Hlen. simpl in Hlen. unfold maxsize in *.
  assert (take 31 (front ++ [(oldest, l_old)]) = front) as ->.
  { apply take_app_length'. lia. }
  split; [done|].
  rewrite cache_get_cons. rewrite Hcache, fmap_app in Hnd.
  apply NoDup_app in Hnd as (_ & Hdisj & _).
  rewrite bool_decide_eq_false_2.
  - apply cache_get_None. intros Hin. apply (Hdisj _ Hin). simpl. left.
  - intros Heq. apply cache_get_None in Hmiss. apply Hmiss.
    rewrite Hcache, fmap_app, <- Heq. apply elem_of_app. right. simpl. left.
Qed.

Lemma full_memo_table_evicts_oldest_witness :
  cache (snd (config_section Examples.quiet None "zenodo" Examples.full_table))
  = ((None, "zenodo"), 4%positive) :: take 31 (cache Examples.full_table)
  ∧ cache_get
      (cache (snd (config_section Examples.quiet None "zenodo" Examples.full_table)))
      (Some "conf.toml", "`") = None.
Proof.
  apply (full_memo_table_evicts_oldest
           Examples.quiet None "zenodo" Examples.full_table
           (snd (config_section Examples.quiet None "zenodo" Examples.full_table))
           4%positive (take 31 (cache Examples.full_table))
           (Some "conf.toml", "`") 2%positive);
    [ split; [apply (bool_decide_unpack _); vm_compute; exact I
             | vm_compute; lia]
    | reflexivity | reflexivity | reflexivity | vm_compute; reflexivity ].
Defined.

(** X8.  The mapping a resolution returned is still served after one
    further call of [config_section], whatever that call resolves: a third
    call with the arguments of the first returns the same mapping and
    changes no object. *)
Theorem entry_survives_one_other_call
    (w1 w2 w3 : world) (fa fb : option string) (sa sb : string)
    (st st1 st2 : pystate) (l : loc) (r : result loc) :
  config_section w1 fa sa st = (Ok l, st1) →
  config_section w2 fb sb st1 = (r, st2) →
  ∃ st3, config_section w3 fa sa st2 = (Ok l, st3) ∧ heap st3 = heap st2.
Proof.
  unfold config_section. intros H1 H2.
  destruct (lru_cache_head _ _ _ _ _ H1) as [rest Hhead].
  assert (cache_get (cache st2) (fa, sa) = Some l) as Hl.
  { revert H2.
    destruct (cache_get (cache st1) (fb, sb)) as [lb|] eqn:Hb.
    - rewrite (lru_hit _ _ _ _ Hb). intros [= <- <-]. cbn [cache].
      rewrite cache_get_cons. case_bool_decide as Hk.
      + rewrite Hk, Hhead, cache_get_cons, bool_decide_eq_true_2 in Hb by done.
        done.
      + rewrite cache_get_drop_ne by done.
        by rewrite Hhead, cache_get_cons, bool_decide_eq_true_2.
    - rewrite (lru_miss _ _ _ Hb).
      destruct (config_section_body w2 (fb, sb) st1) as [[l2|e2] s2] eqn:Hbody;
        apply body_extends in Hbody as [_ Hsame]; intros [= <- <-].
      + cbn [cache]. rewrite Hsame, Hhead. unfold maxsize.
        apply cache_get_take_second. intros Heq.
        by rewrite Heq, Hhead, cache_get_cons, bool_decide_eq_true_2 in Hb.
      + by rewrite Hsame, Hhead, cache_get_cons, bool_decide_eq_true_2. }
  rewrite (lru_hit _ _ _ _ Hl). eauto.
Qed.

Lemma entry_survives_one_other_call_witness :
  ∃ st3,
    config_section Examples.token_set None "zenodo"
      (snd (config_section Examples.explicit_file (Some "conf.toml") "zenodo"
              (snd (config_section Examples.quiet None "zenodo" initial))))
    = (Ok 3%positive, st3)
    ∧ heap st3
      = heap (snd (config_section Examples.explicit_file (Some "conf.toml") "zenodo"
                     (snd (config_section Examples.quiet None "zenodo" initial)))).
Proof.
  apply (entry_survives_one_other_call
           Examples.quiet Examples.explicit_file Examples.token_set
           None (Some "conf.toml") "zenodo" "zenodo" initial
           (snd (config_section Examples.quiet None "zenodo" initial))
           _ 3%positive
           (fst (config_section Examples.explicit_file (Some "conf.toml") "zenodo"
                   (snd (config_section Examples.quiet None "zenodo" initial)))));
    reflexivity.
Defined.

End memo_more.

(** * Resolution followed by validation *)

Section cli_more.
Import Config Spec.

(** [cli] on a resolution that misses the memo table and finds a section
    with at least one key. *)
Lemma cli_run w sandbox file st config st1 found items :
  default_intact st →
  cache_get (cache st) (file, "zenodo") = None →
  read_config_file w file st = (Ok config, st1) →
  PyDict.get config "zenodo" = Some found →
  heap st1 !! found = Some items →
  items ≠ [] →
  ∃ (l : loc) (st2 : pystate),
    heap st2 !! l = Some (overlay_items (environ w) items (PyDict.keys items))
    ∧ Cli.cli w sandbox file st
      = if bool_decide
             (unusable (PyDict.get
                          (overlay_items (environ w) items (PyDict.keys items))
                          (selected_key sandbox)))
        then (Raise (ClickException
                       ("Invalid configuration: "
                        +:+ (if sandbox then sandbox_message else production_message)
                              (overlay_items (environ w) items (PyDict.keys items)))),
              st2)
        else (Ok l, st2).
Proof.
  intros Hd Hmiss Hread Hget Hfound Hne.
  set (result := overlay_items (environ w) items (PyDict.keys items)).
  set (l := fresh (dom (heap st1))).
  set (st2 := PyState (<[l := result]> (heap st1))
                      (take maxsize (((file, "zenodo"), l) :: cache st1))).
  exists l, st2.
  assert (heap st2 !! l = Some result) as Hl by apply lookup_insert_eq.
  split; [exact Hl|].
  assert (zenodo_config w file st = (Ok l, st2)) as Hres.
  { unfold zenodo_config, config_section. rewrite (lru_miss _ _ _ Hmiss).
    by rewrite (body_found _ _ _ _ _ _ _ _ Hread Hget Hfound Hne). }
  assert (default_intact st2) as Hd2.
  { eapply extends_lookup; [|exact Hd].
    eapply config_section_extends. exact Hres. }
  unfold Cli.cli. rewrite (bind_ok _ _ _ _ _ Hres).
  rewrite (validate_run _ _ _ sandbox Hl Hd2).
  by destruct (bool_decide _).
Qed.

(** X9.  A run of [cli] whose resolution misses the memo table and finds a
    [zenodo] section with at least one key passes exactly when the token it
    validates is usable, and that token is the environment variable named
    like the selected key when the section has the key and the variable
    exists, else the value of the section.  When it does not pass, [cli]
    raises a [ClickException] whose message starts with
    [Invalid configuration: ]. *)
Theorem cli_validates_overlaid_token
    (w : world) (sandbox : bool) (file : option string)
    (st st1 : pystate) (config : list (string * loc)) (found : loc)
    (items : PyDict.dict) :
  default_intact st →
  cache_get (cache st) (file, "zenodo") = None →
  read_config_file w file st = (Ok config, st1) →
  PyDict.get config "zenodo" = Some found →
  heap st1 !! found = Some items →
  items ≠ [] →
  (¬ unusable ((fun v => default v (environ w !! selected_key sandbox))
               <$> PyDict.get items (selected_key sandbox)) →
   ∃ l st2, Cli.cli w sandbox file st = (Ok l, st2))
  ∧ (unusable ((fun v => default v (environ w !! selected_key sandbox))
               <$> PyDict.get items (selected_key sandbox)) →
     ∃ message st2,
       Cli.cli w sandbox file st = (Raise (ClickException message), st2)
       ∧ String.prefix "Invalid configuration: " message = true).
Proof.
  intros Hd Hmiss Hread Hget Hfound Hne.
  destruct (cli_run w sandbox _ _ _ _ _ _ Hd Hmiss Hread Hget Hfound Hne)
    as (l & st2 & _ & ->).
  rewrite get_overlay_all.
  assert (∀ o : option string,
            match o with
            | Some v => Some (default v (environ w !! selected_key sandbox))
            | None => None
            end
            = (fun v => default v (environ w !! selected_key sandbox)) <$> o) as ->
    by (by intros []).
  split; intros Hu.
  - rewrite bool_decide_eq_false_2 by done. eauto.
  - rewrite bool_decide_eq_true_2 by done. eexists _, _. split; [reflexivity|].
    apply prefix_app.
Qed.

Lemma cli_validates_overlaid_token_witness :
  (∃ l st2, Cli.cli Examples.explicit_file false (Some "conf.toml") initial
            = (Ok l, st2))
  ∧ ∃ message st2,
      Cli.cli Examples.quiet true None initial
      = (Raise (ClickException message), st2)
      ∧ String.prefix "Invalid configuration: " message = true.
Proof.
  split.
  - apply (cli_validates_overlaid_token
             Examples.explicit_file false (Some "conf.toml") initial
             (snd (read_config_file Examples.explicit_file (Some "conf.toml") initial))
             [("zenodo", 2%positive); ("extra", 3%positive)] 2%positive
             [("ZENODO_ACCESS_TOKEN", "file-token");
              ("ZENODO_SANDBOX_ACCESS_TOKEN", "sandbox-token")]);
      [reflexivity | reflexivity | reflexivity | reflexivity | reflexivity
      | discriminate | ].
    vm_compute. intros [H|H]; discriminate H.
  - apply (cli_validates_overlaid_token
             Examples.quiet true None initial
             (snd (read_config_file Examples.quiet None initial))
             [("zenodo", 2%positive)] 2%positive default_zenodo_items);
      [reflexivity | reflexivity | reflexivity | reflexivity | reflexivity
      | discriminate | ].
    vm_compute. by right.
Defined.

(** X10.  The environment cannot supply a token the section lacks: when the
    [zenodo] section found has no entry for the selected key, [cli] raises
    a [ClickException], whatever the environment holds under that name. *)
Theorem environment_cannot_supply_missing_token
    (w : world) (sandbox : bool) (file : option string)
    (st st1 : pystate) (config : list (string * loc)) (found : loc)
    (items : PyDict.dict) :
  default_intact st →
  cache_get (cache st) (file, "zenodo") = None →
  read_config_file w file st = (Ok config, st1) →
  PyDict.get config "zenodo" = Some found →
  heap st1 !! found = Some items →
  items ≠ [] →
  PyDict.get items (selected_key sandbox) = None →
  ∃ message st2,
    Cli.cli w sandbox file st = (Raise (ClickException message), st2).
Proof.
  intros Hd Hmiss Hread Hget Hfound Hne Hkey.
  destruct (cli_run w sandbox _ _ _ _ _ _ Hd Hmiss Hread Hget Hfound Hne)
    as (l & st2 & _ & ->).
  rewrite get_overlay_all, Hkey. rewrite bool_decide_eq_true_2 by done. eauto.
Qed.

Lemma environment_cannot_supply_missing_token_witness :
  environ Examples.sandbox_in_env !! "ZENODO_SANDBOX_ACCESS_TOKEN" = Some "good-token"
  ∧ ∃ message st2,
      Cli.cli Examples.sandbox_in_env true (Some "conf.toml") initial
      = (Raise (ClickException message), st2).
Proof.
  split; [reflexivity|].
  apply (environment_cannot_supply_missing_token
           Examples.sandbox_in_env true (Some "conf.toml") initial
           (snd (read_config_file Examples.sandbox_in_env (Some "conf.toml") initial))
           [("zenodo", 2%positive)] 2%positive
           [("ZENODO_ACCESS_TOKEN", "file-token")]);
    [reflexivity | reflexivity | reflexivity | reflexivity | reflexivity
    | discriminate | reflexivity].
Defined.

(** X11.  The message of a failed validation starts with the name of the
    key that was checked and ends with the whole section as Python prints
    it. *)
Theorem validation_error_names_checked_key
    (st st' : pystate) (config : loc) (items : PyDict.dict)
    (use_sandbox : bool) (msg : string) :
  heap st !! config = Some items →
  validate_zenodo_config config use_sandbox st = (Raise (ValueError msg), st') →
  String.prefix (selected_key use_sandbox) msg = true
  ∧ ∃ head, msg = head +:+ PyDict.repr items.
Proof.
  intros Hc Hv. rewrite (validation_error_message _ _ _ _ _ _ Hc Hv).
  destruct use_sandbox; (split; [reflexivity | eexists; reflexivity]).
Qed.

Lemma validation_error_names_checked_key_witness :
  String.prefix "ZENODO_SANDBOX_ACCESS_TOKEN"
    (sandbox_message [("ZENODO_ACCESS_TOKEN", "abc123")]) = true
  ∧ ∃ head, sandbox_message [("ZENODO_ACCESS_TOKEN", "abc123")]
            = head +:+ PyDict.repr [("ZENODO_ACCESS_TOKEN", "abc123")].
Proof.
  apply (validation_error_names_checked_key
           Examples.resolved Examples.resolved 2%positive
           [("ZENODO_ACCESS_TOKEN", "abc123")] true);
    reflexivity.
Defined.

End cli_more.

(** * Further properties of cli.py *)

Section masking.

Lemma str_length_app (a b : string) :
  String.length (a +:+ b) = (String.length a + String.length b)%nat.
Proof.
  induction a as [|c a IH]; [done|].
  change (S (String.length (a +:+ b)) = S (String.length a + String.length b)).
  by rewrite IH.
Qed.

Lemma str_app_empty (a : string) : a +:+ EmptyString = a.
Proof.
  induction a as [|c a IH]; [done|].
  change (String c (a +:+ EmptyString) = String c a). by rewrite IH.
Qed.

Lemma length_prefix (n : nat) (s : string) :
  String.length (PyStr.prefix n s) = Nat.min n (String.length s).
Proof.
  revert s. induction n as [|n IH]; intros [|c s]; simpl; try done.
  by rewrite IH.
Qed.

Lemma prefix_all (n : nat) (s : string) :
  (String.length s ≤ n)%nat → PyStr.prefix n s = s.
Proof.
  revert s. induction n as [|n IH]; intros [|c s]; simpl; try done; try lia.
  intros Hlen. rewrite IH; [done | lia].
Qed.

Lemma get_prefix (n i : nat) (s : string) :
  (i < n)%nat → String.get i (PyStr.prefix n s) = String.get i s.
Proof.
  revert i s. induction n as [|n IH]; intros i [|c s] Hi; simpl; try done; try lia.
  destruct i as [|i]; [done|]. apply IH. lia.
Qed.

Lemma get_past_end (i : nat) (s : string) :
  (String.length s ≤ i)%nat → String.get i s = None.
Proof.
  revert i. induction s as [|c s IH]; intros i Hi; simpl; [done|].
  simpl in Hi. destruct i as [|i]; [lia|]. apply IH. lia.
Qed.

Lemma length_repeat (c : ascii) (n : Z) :
  String.length (PyStr.repeat c n) = Z.to_nat n.
Proof.
  unfold PyStr.repeat. induction (Z.to_nat n) as [|k IH]; simpl; [done | by rewrite IH].
Qed.

Lemma get_repeat (c : ascii) (n : Z) (i : nat) :
  (i < Z.to_nat n)%nat → String.get i (PyStr.repeat c n) = Some c.
Proof.
  unfold PyStr.repeat. revert i.
  induction (Z.to_nat n) as [|k IH]; intros i Hi; [lia|].
  simpl. destruct i as [|i]; [done|]. apply IH. lia.
Qed.

Lemma hide_access_token_length_aux (token : string) :
  String.length (Cli.hide_access_token token) = String.length token.
Proof.
  unfold Cli.hide_access_token, PyStr.len.
  rewrite str_length_app, length_prefix, length_repeat. lia.
Qed.

Lemma hide_access_token_short_unmasked_aux (token : string) :
  (String.length token ≤ 4)%nat → Cli.hide_access_token token = token.
Proof.
  intros Hlen. unfold Cli.hide_access_token, PyStr.len, PyStr.repeat.
  rewrite prefix_all by done.
  replace (Z.to_nat (Z.of_nat (String.length token) - 4)) with 0%nat by lia.
  apply str_app_empty.
Qed.

(** X12.  [hide_access_token] returns a string as long as the token. *)
Theorem hide_access_token_keeps_length (token : string) :
  String.length (Cli.hide_access_token token) = String.length token.
Proof. apply hide_access_token_length_aux. Qed.

(** X13.  A token of at most four characters is not masked at all:
    [hide_access_token] returns it as it is. *)
Theorem hide_access_token_short_token_unmasked (token : string) :
  (String.length token ≤ 4)%nat →
  Cli.hide_access_token token = token.
Proof. apply hide_access_token_short_unmasked_aux. Qed.

Lemma hide_access_token_short_token_unmasked_witness :
  Cli.hide_access_token "abcd" = "abcd".
Proof. apply (hide_access_token_short_token_unmasked "abcd"). simpl. lia. Defined.

(** X14.  [hide_access_token] shows the first four characters of the token
    and a star at every later position of it, and nothing after its end. *)
Theorem hide_access_token_shows_first_four (token : string) (i : nat) :
  PyStr.item i (Cli.hide_access_token token)
  = if (i <? 4)%nat then PyStr.item i token
    else if (i <? String.length token)%nat then Some "*"%char
    else None.
Proof.
  unfold PyStr.item.
  destruct (Nat.ltb_spec i 4) as [Hi|Hi].
  - destruct (Nat.le_gt_cases (String.length token) 4) as [Hshort|Hlong].
    + by rewrite hide_access_token_short_unmasked_aux.
    + unfold Cli.hide_access_token.
      rewrite <- String.append_correct1; [by apply get_prefix|].
      rewrite length_prefix. lia.
  - destruct (Nat.ltb_spec i (String.length token)) as [Hin|Hout].
    + unfold Cli.hide_access_token.
      assert (String.length (PyStr.prefix 4 token) = 4%nat) as Hfour
        by (rewrite length_prefix; lia).
      replace i with ((i - 4) + String.length (PyStr.prefix 4 token))%nat by lia.
      rewrite <- String.append_correct2.
      apply get_repeat. unfold PyStr.len. lia.
    + apply get_past_end. rewrite hide_access_token_length_aux. lia.
Qed.

End masking.

Section flattening.
Context {A : Type}.

Lemma _flatten_atoms (xs : list A) : Cli._flatten (map Cli.Atom xs) = xs.
Proof.
  unfold Cli._flatten. induction xs as [|x xs IH]; simpl; [done | by rewrite IH].
Qed.

Lemma _flatten_app (a b : list (Cli.element A)) :
  Cli._flatten (a ++ b) = Cli._flatten a ++ Cli._flatten b.
Proof. unfold Cli._flatten. apply flat_map_app. Qed.

Lemma _flatten_subs {B : Type} (f : B → list A) (ys : list B) :
  Cli._flatten (map (fun y => Cli.Sub (map Cli.Atom (f y))) ys) = flat_map f ys.
Proof.
  induction ys as [|y ys IH]; [done|].
  change (Cli._flatten (map Cli.Atom (f y))
          ++ Cli._flatten (map (fun y => Cli.Sub (map Cli.Atom (f y))) ys)
          = f y ++ flat_map f ys).
  by rewrite _flatten_atoms, IH.
Qed.

(** X15.  [flatten] returns a list that holds no list as it is. *)
Theorem flatten_flat_list_unchanged (xs : list A) :
  Cli.flatten (map Cli.Atom xs) = xs.
Proof. apply _flatten_atoms. Qed.

(** X16.  [flatten] of a list of flat lists is their concatenation, in
    order. *)
Theorem flatten_list_of_lists (ls : list (list A)) :
  Cli.flatten (map (fun l => Cli.Sub (map Cli.Atom l)) ls) = List.concat ls.
Proof.
  unfold Cli.flatten. rewrite (_flatten_subs (fun l => l)).
  induction ls as [|l ls IH]; simpl; [done | by rewrite IH].
Qed.

(** X17.  [flatten] does not see the brackets: a list inside the list can
    be replaced by its elements without changing the result, at any depth
    of the elements before and after it. *)
Theorem flatten_ignores_brackets (before inner after : list (Cli.element A)) :
  Cli.flatten (before ++ Cli.Sub inner :: after)
  = Cli.flatten (before ++ inner ++ after).
Proof.
  unfold Cli.flatten. rewrite !_flatten_app.
  change (Cli._flatten (Cli.Sub inner :: after))
    with (Cli._flatten inner ++ Cli._flatten after).
  done.
Qed.

End flattening.

Section splitting.

Lemma has_char_app c a b :
  PyStr.has_char c (a +:+ b) = PyStr.has_char c a || PyStr.has_char c b.
Proof.
  induction a as [|d a IH]; [done|].
  change (PyStr.has_char c (String d (a +:+ b))
          = PyStr.has_char c (String d a) || PyStr.has_char c b).
  simpl. rewrite IH. by rewrite orb_assoc.
Qed.

Lemma split_nonempty sep s : PyStr.split sep s ≠ [].
Proof.
  destruct s as [|c s]; simpl; [done|].
  case_bool_decide; [done|]. by destruct (PyStr.split sep s).
Qed.

Lemma join_cons sep p ps :
  ps ≠ [] → PyStr.join sep (p :: ps) = p +:+ String sep (PyStr.join sep ps).
Proof. by destruct ps. Qed.

Lemma join_split sep s : PyStr.join sep (PyStr.split sep s) = s.
Proof.
  induction s as [|c s IH]; [done|]. simpl.
  pose proof (split_nonempty sep s) as Hne.
  case_bool_decide as Hc.
  - rewrite join_cons by done. rewrite IH. by subst.
  - destruct (PyStr.split sep s) as [|p ps]; [done|].
    destruct ps as [|q ps].
    + simpl in *. by rewrite IH.
    + rewrite join_cons by done. rewrite join_cons in IH by done.
      rewrite <- IH. done.
Qed.

Lemma split_pieces_clean sep s :
  Forall (fun p => PyStr.has_char sep p = false) (PyStr.split sep s).
Proof.
  induction s as [|c s IH]; simpl; [by repeat constructor|].
  case_bool_decide as Hc; [by constructor|].
  pose proof (split_nonempty sep s) as Hne.
  destruct (PyStr.split sep s) as [|p ps]; [done|].
  inversion_clear IH as [|? ? Hp Hps]. constructor; [|done].
  simpl. rewrite Hp. rewrite bool_decide_eq_false_2; [done | congruence].
Qed.

Lemma split_clean sep s :
  PyStr.has_char sep s = false → PyStr.split sep s = [s].
Proof.
  induction s as [|c s IH]; simpl; [done|].
  intros [Hc Hs]%orb_false_iff. apply bool_decide_eq_false in Hc.
  rewrite bool_decide_eq_false_2 by congruence. by rewrite IH.
Qed.

Lemma split_app_sep sep a b :
  PyStr.has_char sep a = false →
  PyStr.split sep (a +:+ String sep b) = a :: PyStr.split sep b.
Proof.
  induction a as [|c a IH]; intros Ha.
  - change (PyStr.split sep (String sep b) = EmptyString :: PyStr.split sep b).
    simpl. by rewrite bool_decide_eq_true_2.
  - simpl in Ha. apply orb_false_iff in Ha as [Hc Ha].
    apply bool_decide_eq_false in Hc.
    change (PyStr.split sep (String c (a +:+ String sep b))
            = String c a :: PyStr.split sep b).
    simpl. rewrite bool_decide_eq_false_2 by congruence. by rewrite IH.
Qed.

Lemma lstrip_has_char c s :
  PyStr.has_char c s = false → PyStr.has_char c (PyStr.lstrip s) = false.
Proof.
  induction s as [|d s IH]; simpl; [done|].
  intros H. destruct (PyStr.isspace d); [|done].
  apply IH. by apply orb_false_iff in H as [_ ?].
Qed.

Lemma rstrip_has_char c s :
  PyStr.has_char c s = false → PyStr.has_char c (PyStr.rstrip s) = false.
Proof.
  induction s as [|d s IH]; simpl; [done|].
  intros [Hd Hs]%orb_false_iff. specialize (IH Hs).
  destruct (PyStr.rstrip s) as [|e r].
  - destruct (PyStr.isspace d); simpl; [done | by rewrite Hd].
  - simpl in *. by rewrite Hd, IH.
Qed.

Lemma lstrip_head s :
  match PyStr.lstrip s with
  | EmptyString => True
  | String c _ => PyStr.isspace c = false
  end.
Proof.
  induction s as [|d s IH]; simpl; [done|].
  destruct (PyStr.isspace d) eqn:Hd; [done | simpl; done].
Qed.

Lemma rstrip_idempotent s : PyStr.rstrip (PyStr.rstrip s) = PyStr.rstrip s.
Proof.
  induction s as [|d s IH]; simpl; [done|].
  destruct (PyStr.rstrip s) as [|e r] eqn:Hr.
  - destruct (PyStr.isspace d) eqn:Hd; simpl; [done | by rewrite Hd].
  - change (PyStr.rstrip (String d (String e r)))
      with (match PyStr.rstrip (String e r) with
            | EmptyString =>
                if PyStr.isspace d then EmptyString else String d EmptyString
            | String e' r' => String d (String e' r')
            end).
    by rewrite IH.
Qed.

Lemma rstrip_keeps_head c r :
  PyStr.isspace c = false →
  ∃ r', PyStr.rstrip (String c r) = String c r'.
Proof.
  intros Hc. simpl. destruct (PyStr.rstrip r); [rewrite Hc|]; eauto.
Qed.

Lemma strip_idempotent s : PyStr.strip (PyStr.strip s) = PyStr.strip s.
Proof.
  unfold PyStr.strip. pose proof (lstrip_head s) as Hh.
  destruct (PyStr.lstrip s) as [|c r]; [done|].
  destruct (rstrip_keeps_head c r Hh) as [r' Hr]. rewrite Hr.
  assert (PyStr.lstrip (String c r') = String c r') as -> by (simpl; by rewrite Hh).
  rewrite <- Hr. apply rstrip_idempotent.
Qed.

Lemma stored_keywords_flat_map (keywords : list string) :
  Cli.stored_keywords keywords
  = map PyStr.strip (flat_map (PyStr.split ",") keywords).
Proof.
  unfold Cli.stored_keywords, Cli.flatten.
  by rewrite (_flatten_subs (PyStr.split ",")).
Qed.

(** X18.  Every keyword [deposit] and [upload] store has no comma in it
    and no whitespace around it. *)
Theorem stored_keywords_are_clean (keywords : list string) :
  Forall (fun x => PyStr.has_char "," x = false ∧ PyStr.strip x = x)
         (Cli.stored_keywords keywords).
Proof.
  rewrite stored_keywords_flat_map. apply Forall_fmap.
  induction keywords as [|k keywords IH]; simpl; [constructor|].
  apply Forall_app. split; [|done].
  eapply Forall_impl; [apply split_pieces_clean|].
  intros p Hp. simpl. split; [|apply strip_idempotent].
  unfold PyStr.strip. by apply rstrip_has_char, lstrip_has_char.
Qed.

(** X19.  Keywords given without a comma are stored one for one, each
    with the whitespace around it removed. *)
Theorem stored_keywords_without_commas (keywords : list string) :
  Forall (fun k => PyStr.has_char "," k = false) keywords →
  Cli.stored_keywords keywords = map PyStr.strip keywords.
Proof.
  intros Hclean. rewrite stored_keywords_flat_map. f_equal.
  induction Hclean as [|k keywords Hk _ IH]; simpl; [done|].
  by rewrite (split_clean _ _ Hk), IH.
Qed.

Lemma stored_keywords_without_commas_witness :
  Cli.stored_keywords [" climate "; "ocean"] = ["climate"; "ocean"].
Proof.
  apply (stored_keywords_without_commas [" climate "; "ocean"]).
  repeat constructor.
Defined.

(** X20.  A keyword option with commas gives one stored keyword per piece
    between the commas, empty pieces included: the number of keywords
    stored for it is the number of its commas plus one. *)
Theorem stored_keywords_count (keyword : string) :
  List.length (Cli.stored_keywords [keyword])
  = S (List.length (filter (fun c => c = ","%char) (list_ascii_of_string keyword))).
Proof.
  rewrite stored_keywords_flat_map. simpl. rewrite length_map, app_nil_r.
  induction keyword as [|c s IH]; simpl; [done|].
  rewrite filter_cons. case_bool_decide as Hc.
  - rewrite decide_True by done. simpl. by rewrite IH.
  - rewrite decide_False by done.
    pose proof (split_nonempty "," s) as Hne.
    destruct (PyStr.split "," s) as [|p ps]; [done|].
    simpl in *. done.
Qed.

(** X21.  The unpacking of a [--variable] in [upload] finds a key and a
    value exactly when the variable has one colon, and these are the text
    before and after it; with no colon or more than one it raises. *)
Theorem unpack_variable_needs_one_colon (var key value : string) :
  Cli.unpack_variable var = Some (key, value)
  ↔ var = key +:+ String ":" value
    ∧ PyStr.has_char ":" key = false
    ∧ PyStr.has_char ":" value = false.
Proof.
  unfold Cli.unpack_variable. split.
  - pose proof (join_split ":" var) as Hjoin.
    pose proof (split_pieces_clean ":" var) as Hclean.
    destruct (PyStr.split ":" var) as [|k [|v [|x rest]]]; try done.
    intros [= -> ->]. split; [by rewrite <- Hjoin|].
    inversion_clear Hclean as [|? ? Hk Hrest].
    by inversion_clear Hrest.
  - intros (-> & Hk & Hv).
    by rewrite (split_app_sep _ _ _ Hk), (split_clean _ _ Hv).
Qed.

End splitting.

Section unique_dicts.
Context {K V : Type} `{EqDecision K}.

Lemma setitem_new (m : list (K * V)) k v :
  k ∉ m.*1 → Cli.setitem m k v = m ++ [(k, v)].
Proof.
  induction m as [|[k' v'] m IH]; simpl; [done|].
  intros [Hne Hm]%not_elem_of_cons.
  rewrite decide_False by congruence. by rewrite IH.
Qed.

Lemma setitem_keys_old (m : list (K * V)) k v :
  k ∈ m.*1 → (Cli.setitem m k v).*1 = m.*1.
Proof.
  induction m as [|[k' v'] m IH]; simpl; intros Hin.
  - by apply elem_of_nil in Hin.
  - case_decide as Hk; simpl; [by subst|].
    f_equal. apply IH. apply elem_of_cons in Hin as [->|]; done.
Qed.

Lemma setitem_NoDup (m : list (K * V)) k v :
  NoDup m.*1 → NoDup (Cli.setitem m k v).*1.
Proof.
  intros Hnd. destruct (decide (k ∈ m.*1)) as [Hin|Hnew].
  - by rewrite setitem_keys_old.
  - rewrite setitem_new, fmap_app by done. simpl.
    apply NoDup_app. split; [done|]. split; [|apply NoDup_singleton].
    intros x Hx Hk. apply list_elem_of_singleton in Hk. by subst.
Qed.

Lemma setitem_elem (m : list (K * V)) k v k' v' :
  NoDup m.*1 →
  (k', v') ∈ Cli.setitem m k v
  ↔ (k' = k ∧ v' = v) ∨ (k' ≠ k ∧ (k', v') ∈ m).
Proof.
  induction m as [|[k0 v0] m IH]; simpl; intros Hnd.
  - rewrite list_elem_of_singleton. split.
    + intros [= -> ->]. by left.
    + intros [[-> ->]|[_ Hin]]; [done | by apply elem_of_nil in Hin].
  - apply NoDup_cons in Hnd as [Hk0 Hnd]. case_decide as Hk.
    + subst k0. rewrite !elem_of_cons. split.
      * intros [[= -> ->]|Hin]; [by left|]. right. split; [|by right].
        intros ->. apply Hk0. by apply (list_elem_of_fmap_2 fst _ (k, v')).
      * intros [[-> ->]|[Hne [[= ? ?]|Hin]]]; [by left | done | by right].
    + rewrite !elem_of_cons, (IH Hnd). split.
      * intros [[= -> ->]|[[-> ->]|[Hne Hin]]].
        -- right. split; [done | by left].
        -- by left.
        -- right. split; [done | by right].
      * intros [[-> ->]|[Hne [[= -> ->]|Hin]]].
        -- right. by left.
        -- by left.
        -- right. right. done.
Qed.

End unique_dicts.

Section unique_dicts_facts.
Import Cli.

(** The dictionary comprehension of [get_unique_dicts], started from the
    table [m]. *)
Lemma by_items_from (m : list (gset (string * string) * PyDict.dict))
    (dict_list : list PyDict.dict) (d : PyDict.dict) :
  NoDup m.*1 →
  (frozen_items d, d)
    ∈ fold_left (fun m d => setitem m (frozen_items d) d) dict_list m
  ↔ (∃ before after,
       dict_list = before ++ d :: after
       ∧ Forall (fun x => frozen_items x ≠ frozen_items d) after)
    ∨ ((frozen_items d, d) ∈ m
       ∧ Forall (fun x => frozen_items x ≠ frozen_items d) dict_list).
Proof.
  revert m. induction dict_list as [|x ds IH]; intros m Hnd; simpl.
  - split.
    + intros Hin. right. by split.
    + intros [(before & after & Heq & _)|[Hin _]]; [|done].
      by destruct before.
  - rewrite (IH _ (setitem_NoDup _ _ _ Hnd)). rewrite (setitem_elem _ _ _ _ _ Hnd).
    split.
    + intros [(before & after & -> & Hafter)|[[[Hk ->]|[Hk Hin]] Hds]].
      * left. by exists (x :: before), after.
      * left. by exists [], ds.
      * right. split; [done|]. constructor; [congruence | done].
    + intros [(before & after & Heq & Hafter)|[Hin Hds]].
      * destruct before as [|b before]; simpl in Heq.
        -- injection Heq as -> ->. right. split; [by left | done].
        -- injection Heq as -> ->. left. by exists before, after.
      * inversion_clear Hds as [|? ? Hx Hrest]. right. split; [|done].
        right. split; [congruence | done].
Qed.

Lemma by_items_keys (dict_list : list PyDict.dict)
    (m : list (gset (string * string) * PyDict.dict)) :
  Forall (fun e => e.1 = frozen_items e.2) m →
  Forall (fun e => e.1 = frozen_items e.2)
         (fold_left (fun m d => setitem m (frozen_items d) d) dict_list m).
Proof.
  revert m. induction dict_list as [|x ds IH]; intros m Hm; simpl; [done|].
  apply IH. clear IH.
  induction m as [|[k v] m IHm]; simpl; [by repeat constructor|].
  inversion_clear Hm as [|? ? Hkv Hrest].
  case_decide; constructor; auto.
Qed.

Lemma by_items_NoDup (dict_list : list PyDict.dict)
    (m : list (gset (string * string) * PyDict.dict)) :
  NoDup m.*1 →
  NoDup (fold_left (fun m d => setitem m (frozen_items d) d) dict_list m).*1.
Proof.
  revert m. induction dict_list as [|x ds IH]; intros m Hm; simpl; [done|].
  by apply IH, setitem_NoDup.
Qed.

Lemma by_items_distinct (dict_list : list PyDict.dict)
    (m : list (gset (string * string) * PyDict.dict)) :
  NoDup (m.*1 ++ map frozen_items dict_list) →
  fold_left (fun m d => setitem m (frozen_items d) d) dict_list m
  = m ++ map (fun d => (frozen_items d, d)) dict_list.
Proof.
  revert m. induction dict_list as [|x ds IH]; intros m Hnd; simpl.
  - by rewrite app_nil_r.
  - simpl in Hnd.
    assert (frozen_items x ∉ m.*1) as Hnew.
    { apply NoDup_app in Hnd as (_ & Hdisj & _). intros Hin.
      apply (Hdisj _ Hin). left. }
    rewrite setitem_new by done. rewrite IH.
    + by rewrite <- app_assoc.
    + rewrite fmap_app. simpl. by rewrite <- app_assoc.
Qed.

Lemma keyed_values (m : list (gset (string * string) * PyDict.dict)) :
  Forall (fun e => e.1 = frozen_items e.2) m →
  map frozen_items m.*2 = m.*1.
Proof.
  induction 1 as [|[k v] m Hkv _ IH]; [done|].
  change (frozen_items v :: map frozen_items m.*2 = k :: m.*1).
  simpl in Hkv. by rewrite IH, Hkv.
Qed.

Lemma unique_values_keys (dict_list : list PyDict.dict) :
  map frozen_items (get_unique_dicts dict_list) = (by_items dict_list).*1.
Proof.
  unfold get_unique_dicts. apply keyed_values.
  apply (by_items_keys dict_list []). constructor.
Qed.

Lemma unique_distinct_aux (dict_list : list PyDict.dict) :
  NoDup (map frozen_items (get_unique_dicts dict_list)).
Proof.
  rewrite unique_values_keys. apply by_items_NoDup. constructor.
Qed.

Lemma unique_identity_aux (dict_list : list PyDict.dict) :
  NoDup (map frozen_items dict_list) → get_unique_dicts dict_list = dict_list.
Proof.
  intros Hnd. unfold get_unique_dicts, by_items.
  rewrite by_items_distinct by done. simpl.
  induction dict_list as [|d ds IH]; simpl; [done|].
  f_equal. apply IH. by apply NoDup_cons in Hnd as [_ ?].
Qed.

(** X22.  No two dictionaries [get_unique_dicts] returns have the same
    items. *)
Theorem get_unique_dicts_distinct (dict_list : list PyDict.dict) :
  NoDup (map frozen_items (get_unique_dicts dict_list)).
Proof. apply unique_distinct_aux. Qed.

(** X23.  [get_unique_dicts] returns, of the dictionaries of the list with
    the same items, the last one: a dictionary is returned exactly when it
    stands in the list with no dictionary of the same items after it. *)
Theorem get_unique_dicts_keeps_last
    (dict_list : list PyDict.dict) (d : PyDict.dict) :
  d ∈ get_unique_dicts dict_list
  ↔ ∃ before after,
      dict_list = before ++ d :: after
      ∧ Forall (fun x => frozen_items x ≠ frozen_items d) after.
Proof.
  pose proof (by_items_from [] dict_list d (NoDup_nil_2)) as Hmem.
  fold (by_items dict_list) in Hmem.
  pose proof (by_items_keys dict_list [] (Forall_nil_2 _)) as Hkeys.
  fold (by_items dict_list) in Hkeys.
  unfold get_unique_dicts. split.
  - intros Hin. apply list_elem_of_fmap in Hin as ([k d'] & -> & Hin).
    rewrite Forall_forall in Hkeys. pose proof (Hkeys _ Hin) as Hk.
    simpl in Hk. subst k. apply Hmem in Hin as [Hin|[Hin _]]; [done|].
    by apply elem_of_nil in Hin.
  - intros Hex. apply (list_elem_of_fmap_2 snd _ (frozen_items d, d)).
    apply Hmem. by left.
Qed.

(** X24.  A list of dictionaries with pairwise different items is returned
    by [get_unique_dicts] as it is, in the same order. *)
Theorem get_unique_dicts_keeps_distinct (dict_list : list PyDict.dict) :
  NoDup (map frozen_items dict_list) →
  get_unique_dicts dict_list = dict_list.
Proof. apply unique_identity_aux. Qed.

Lemma get_unique_dicts_keeps_distinct_witness :
  get_unique_dicts [[("a", "1")]; [("a", "2")]; []]
  = [[("a", "1")]; [("a", "2")]; []].
Proof.
  apply (get_unique_dicts_keeps_distinct [[("a", "1")]; [("a", "2")]; []]).
  apply (bool_decide_unpack _). vm_compute. exact I.
Defined.

(** X25.  [get_unique_dicts] applied to its own result changes nothing. *)
Theorem get_unique_dicts_idempotent (dict_list : list PyDict.dict) :
  get_unique_dicts (get_unique_dicts dict_list) = get_unique_dicts dict_list.
Proof. apply unique_identity_aux, unique_distinct_aux. Qed.

End unique_dicts_facts.

Section frame.
Import Config Spec.

(** X26.  A call of [config_section] changes no dictionary that exists
    when it starts: the default, the mappings handed out by earlier calls
    and any other object hold the same items afterwards, whether the call
    returns or raises. *)
Theorem resolution_changes_no_existing_object
    (w : world) (file : option string) (section : string)
    (st st' : pystate) (r : result loc) (l : loc) (d : PyDict.dict) :
  config_section w file section st = (r, st') →
  heap st !! l = Some d →
  heap st' !! l = Some d.
Proof.
  intros Hrun Hl. eapply extends_lookup; [|exact Hl].
  eapply config_section_extends. exact Hrun.
Qed.

Lemma resolution_changes_no_existing_object_witness :
  heap (snd (config_section Examples.explicit_file (Some "conf.toml") "zenodo"
               Examples.resolved)) !! 2%positive
  = Some [("ZENODO_ACCESS_TOKEN", "abc123")].
Proof.
  apply (resolution_changes_no_existing_object
           Examples.explicit_file (Some "conf.toml") "zenodo" Examples.resolved
           (snd (config_section Examples.explicit_file (Some "conf.toml") "zenodo"
                   Examples.resolved))
           (fst (config_section Examples.explicit_file (Some "conf.toml") "zenodo"
                   Examples.resolved))
           2%positive [("ZENODO_ACCESS_TOKEN", "abc123")]);
    reflexivity.
Defined.

End frame.
